(** * Eco.py: the registry of holders (Titulares) and dependents (Dependentes)

    A shallow embedding of [Eco.py].  The Python functions are written in a
    small state-and-exception monad over a model of the [sqlite3] module:
    a database file holding the two tables, a connection with its implicit
    transaction, and the outcome of every call into the library. *)

From Stdlib Require Import ZArith NArith Ascii String List Sorting.Sorted
  Sorting.Permutation Decimal DecimalZ Lia.
From stdpp Require Import base option list gmap strings sorting.

Local Open Scope string_scope.
Local Open Scope list_scope.

(** ** Python values *)

(** A Python [str] is a sequence of Unicode code points. *)
Abbreviation codepoint := N.
Abbreviation str := (list N).

(** The [str] of an ASCII literal of this file. *)
Definition lit (s : string) : str :=
  map N_of_ascii (list_ascii_of_string s).

(** The values a record (the dict [dados]) holds in the program: strings,
    integers (['idade': 24]) and [None] (['data_fim': None]). *)
Inductive PyValue : Type :=
  | PyNone
  | PyInt (z : Z)
  | PyStr (s : str).

#[global] Instance PyValue_eq_dec : EqDecision PyValue.
Proof. solve_decision. Defined.

(** ** [re.fullmatch(r"\d{11}", cpf)] *)

(** The code points of general category Nd, as inclusive ranges (Unicode
    14.0, the table of CPython 3.11).  For a [str] pattern [\d] matches
    exactly these: [re.ASCII] is not set in [cpf_valido]. *)
Definition decimal_ranges : list (N * N) :=
  [ (0x30, 0x39); (0x660, 0x669); (0x6F0, 0x6F9); (0x7C0, 0x7C9);
    (0x966, 0x96F); (0x9E6, 0x9EF); (0xA66, 0xA6F); (0xAE6, 0xAEF);
    (0xB66, 0xB6F); (0xBE6, 0xBEF); (0xC66, 0xC6F); (0xCE6, 0xCEF);
    (0xD66, 0xD6F); (0xDE6, 0xDEF); (0xE50, 0xE59); (0xED0, 0xED9);
    (0xF20, 0xF29); (0x1040, 0x1049); (0x1090, 0x1099); (0x17E0, 0x17E9);
    (0x1810, 0x1819); (0x1946, 0x194F); (0x19D0, 0x19D9); (0x1A80, 0x1A89);
    (0x1A90, 0x1A99); (0x1B50, 0x1B59); (0x1BB0, 0x1BB9); (0x1C40, 0x1C49);
    (0x1C50, 0x1C59); (0xA620, 0xA629); (0xA8D0, 0xA8D9); (0xA900, 0xA909);
    (0xA9D0, 0xA9D9); (0xA9F0, 0xA9F9); (0xAA50, 0xAA59); (0xABF0, 0xABF9);
    (0xFF10, 0xFF19); (0x104A0, 0x104A9); (0x10D30, 0x10D39);
    (0x11066, 0x1106F); (0x110F0, 0x110F9); (0x11136, 0x1113F);
    (0x111D0, 0x111D9); (0x112F0, 0x112F9); (0x11450, 0x11459);
    (0x114D0, 0x114D9); (0x11650, 0x11659); (0x116C0, 0x116C9);
    (0x11730, 0x11739); (0x118E0, 0x118E9); (0x11950, 0x11959);
    (0x11C50, 0x11C59); (0x11D50, 0x11D59); (0x11DA0, 0x11DA9);
    (0x16A60, 0x16A69); (0x16AC0, 0x16AC9); (0x16B50, 0x16B59);
    (0x1D7CE, 0x1D7FF); (0x1E140, 0x1E149); (0x1E2F0, 0x1E2F9);
    (0x1E950, 0x1E959); (0x1FBF0, 0x1FBF9) ]%N.

Definition in_range (c : codepoint) (r : N * N) : bool :=
  (fst r <=? c)%N && (c <=? snd r)%N.

(** [Py_UNICODE_ISDECIMAL], the test behind the category [\d] of [sre]. *)
Definition Py_UNICODE_ISDECIMAL (c : codepoint) : bool :=
  existsb (in_range c) decimal_ranges.

(** The ASCII digits ['0'] .. ['9']. *)
Definition ascii_digit (c : codepoint) : bool :=
  (0x30 <=? c)%N && (c <=? 0x39)%N.

(** [\d{n}] at the head of [s]: consumes [n] decimal characters and gives
    the rest of the string, or fails. *)
Fixpoint match_digits (n : nat) (s : str) : option str :=
  match n with
  | O => Some s
  | S n' =>
      match s with
      | c :: s' => if Py_UNICODE_ISDECIMAL c then match_digits n' s' else None
      | [] => None
      end
  end.

(** [re.fullmatch(r"\d{11}", s)] is not [None]: the pattern consumes the
    whole string. *)
Definition fullmatch_d11 (s : str) : bool :=
  match match_digits 11 s with
  | Some [] => true
  | _ => false
  end.

(** [cpf_valido], Eco.py line 68. *)
Definition cpf_valido (cpf : str) : bool := fullmatch_d11 cpf.

(** What the specification asks of a tax ID: exactly 11 ASCII digits. *)
Definition eleven_ascii_digits (s : str) : bool :=
  (length s =? 11)%nat && forallb ascii_digit s.

(** What the pattern accepts: exactly 11 decimal characters. *)
Definition eleven_decimal_digits (s : str) : bool :=
  (length s =? 11)%nat && forallb Py_UNICODE_ISDECIMAL s.

(** ** SQLite values and the two tables *)

(** The storage classes the program reaches: NULL, INTEGER and TEXT. *)
Inductive SqlValue : Type :=
  | SqlNull
  | SqlInteger (z : Z)
  | SqlText (s : str).

#[global] Instance SqlValue_eq_dec : EqDecision SqlValue.
Proof. solve_decision. Defined.

(** Rows of [Titulares], one field per column of the CREATE TABLE statement
    (Eco.py lines 17-34). *)
Module Titulares.
Record row : Type := Row {
  CPF : SqlValue;              (* TEXT PRIMARY KEY *)
  Credencial : SqlValue;       (* TEXT UNIQUE NOT NULL *)
  Nome : SqlValue;             (* TEXT NOT NULL *)
  Sexo : SqlValue;             (* TEXT CHECK(Sexo IN ('M', 'F')) *)
  DtNascimento : SqlValue;     (* TEXT NOT NULL *)
  Idade : SqlValue;            (* INTEGER *)
  FaixaANS : SqlValue;
  EstadoCivil : SqlValue;
  TipoSuplementar : SqlValue;
  CEP : SqlValue;
  Bairro : SqlValue;
  Cidade : SqlValue;
  Estado : SqlValue;
  StatusSegurado : SqlValue;   (* TEXT DEFAULT 'Ativo' *)
  DataInicio : SqlValue;
  DataFim : SqlValue
}.
End Titulares.

(** Rows of [Dependentes] (Eco.py lines 39-55). *)
Module Dependentes.
Record row : Type := Row {
  CPF : SqlValue;              (* TEXT PRIMARY KEY *)
  Credencial : SqlValue;       (* TEXT UNIQUE NOT NULL *)
  Nome : SqlValue;             (* TEXT NOT NULL *)
  Sexo : SqlValue;             (* TEXT CHECK(Sexo IN ('M', 'F')) *)
  DtNascimento : SqlValue;     (* TEXT NOT NULL *)
  Idade : SqlValue;            (* INTEGER *)
  FaixaANS : SqlValue;
  EstadoCivil : SqlValue;
  GrauParentesco : SqlValue;   (* TEXT NOT NULL *)
  TipoSuplementar : SqlValue;
  CPFTitular : SqlValue;       (* TEXT NOT NULL, REFERENCES Titulares(CPF)
                                  ON DELETE CASCADE *)
  StatusSegurado : SqlValue;
  DataInicio : SqlValue;
  DataFim : SqlValue
}.
End Dependentes.

#[global] Instance Titulares_row_eq_dec : EqDecision Titulares.row.
Proof. solve_decision. Defined.

#[global] Instance Dependentes_row_eq_dec : EqDecision Dependentes.row.
Proof. solve_decision. Defined.

(** The database file [ECO.db]: each table is absent ([None]) or holds its
    rows in rowid order. *)
Record Database : Type := {
  tbl_Titulares : option (list Titulares.row);
  tbl_Dependentes : option (list Dependentes.row)
}.

Definition empty_file : Database :=
  {| tbl_Titulares := None; tbl_Dependentes := None |}.

(** *** Comparison and ordering of values *)

(** SQL [=] as a WHERE condition between values of the same storage class;
    a comparison with NULL is not true. *)
Definition sql_eq (a b : SqlValue) : bool :=
  match a, b with
  | SqlInteger x, SqlInteger y => (x =? y)%Z
  | SqlText x, SqlText y => bool_decide (x = y)
  | _, _ => false
  end.

(** Code point order on strings, which is the order of [memcmp] on their
    UTF-8 encodings (the BINARY collation). *)
Fixpoint str_leb (x y : str) : bool :=
  match x, y with
  | [], _ => true
  | _ :: _, [] => false
  | a :: x', b :: y' => (a <? b)%N || ((a =? b)%N && str_leb x' y')
  end.

(** The order of ORDER BY: NULL first, then integers, then text. *)
Definition sql_leb (a b : SqlValue) : bool :=
  match a, b with
  | SqlNull, _ => true
  | SqlInteger _, SqlNull => false
  | SqlInteger x, SqlInteger y => (x <=? y)%Z
  | SqlInteger _, SqlText _ => true
  | SqlText x, SqlText y => str_leb x y
  | SqlText _, _ => false
  end.

(** *** Column affinity *)

Fixpoint uint_text (d : Decimal.uint) : str :=
  match d with
  | Nil => []
  | D0 d => 0x30%N :: uint_text d | D1 d => 0x31%N :: uint_text d
  | D2 d => 0x32%N :: uint_text d | D3 d => 0x33%N :: uint_text d
  | D4 d => 0x34%N :: uint_text d | D5 d => 0x35%N :: uint_text d
  | D6 d => 0x36%N :: uint_text d | D7 d => 0x37%N :: uint_text d
  | D8 d => 0x38%N :: uint_text d | D9 d => 0x39%N :: uint_text d
  end.

(** The decimal text of an integer. *)
Definition decimal_text (z : Z) : str :=
  match Z.to_int z with
  | Decimal.Pos d => uint_text d
  | Decimal.Neg d => 0x2D%N :: uint_text d
  end.

(** TEXT affinity: an integer is stored as its decimal text. *)
Definition text_affinity (v : SqlValue) : SqlValue :=
  match v with
  | SqlInteger z => SqlText (decimal_text z)
  | _ => v
  end.

Definition in_int64 (z : Z) : bool :=
  (- 2 ^ 63 <=? z)%Z && (z <? 2 ^ 63)%Z.

Fixpoint digits_value (acc : Z) (s : str) : option Z :=
  match s with
  | [] => Some acc
  | c :: s' =>
      if ascii_digit c
      then digits_value (10 * acc + (Z.of_N c - 0x30))%Z s'
      else None
  end.

(** The integer literals [[+-]?[0-9]+]. *)
Definition unsigned_literal (s : str) : option Z :=
  match s with
  | [] => None
  | _ :: _ => digits_value 0 s
  end.

Definition integer_literal (s : str) : option Z :=
  match s with
  | [] => None
  | c :: s' =>
      if (c =? 0x2D)%N then Z.opp <$> unsigned_literal s'
      else if (c =? 0x2B)%N then unsigned_literal s'
      else unsigned_literal s
  end.

(** INTEGER affinity (column [Idade]): text that is an integer literal
    within 64 bits is stored as that integer.  SQLite also accepts blanks
    around the literal and converts real literals (to INTEGER when the
    value is integral, to REAL otherwise); REAL is not among the storage
    classes above, and such text is kept as written here.  No statement of
    the program looks into [Idade]. *)
Definition integer_affinity (v : SqlValue) : SqlValue :=
  match v with
  | SqlText s =>
      match integer_literal s with
      | Some z => if in_int64 z then SqlInteger z else v
      | None => v
      end
  | _ => v
  end.

(** ** Exceptions and console output *)

Inductive Constraint : Type :=
  | NotNull (column : string)
  | Check (column : string)
  | Unique (column : string)
  | ForeignKey.

Inductive Failure : Type :=
  | NoSuchTable (name : string)
  | StorageFailure.       (* unable to open, disk I/O error, database locked *)

(** The subclasses of [sqlite3.Error] the library raises here. *)
Inductive SqliteError : Type :=
  | IntegrityError (c : Constraint)
  | OperationalError (f : Failure)
  | ProgrammingError.     (* wrong number of bindings *)

Inductive Exception : Type :=
  | KeyError (key : string)
  | TypeError
  | OverflowError
  | UnicodeEncodeError
  | UnboundLocalError (name : string)
  | Sqlite3Error (e : SqliteError).

(** [isinstance(e, sqlite3.Error)]. *)
Definition is_sqlite3_Error (e : Exception) : bool :=
  match e with Sqlite3Error _ => true | _ => false end.

(** A row of the first SELECT of [listar_pessoas]. *)
Record LinhaTitular : Type := {
  lt_CPF : SqlValue; lt_Nome : SqlValue; lt_Sexo : SqlValue;
  lt_Idade : SqlValue; lt_Estado : SqlValue; lt_Status : SqlValue
}.

(** A row of the second SELECT of [listar_pessoas]. *)
Record LinhaDependente : Type := {
  ld_CPF : SqlValue; ld_Nome : SqlValue; ld_Sexo : SqlValue;
  ld_Idade : SqlValue; ld_Parentesco : SqlValue; ld_Titular : SqlValue;
  ld_Status : SqlValue
}.

(** The lines the program prints, one constructor per [print] of Eco.py
    with the values its f-string interpolates. *)
Inductive Message : Type :=
  | TabelasCriadas                          (* line 59 *)
  | ErroCriarTabelas (e : SqliteError)      (* line 61 *)
  | CpfInvalido (cpf : PyValue)             (* lines 79 and 156 *)
  | TitularInserido (nome : PyValue)        (* line 100 *)
  | ErroIntegridade (e : SqliteError)       (* lines 102 and 146 *)
  | ErroBancoDados (e : SqliteError)        (* lines 104 and 148 *)
  | CpfInvalidoDependente (cpf : PyValue)   (* line 113 *)
  | CpfInvalidoTitular (cpf : PyValue)      (* line 117 *)
  | TitularNaoEncontrado (cpf : PyValue)    (* line 127 *)
  | DependenteInserido (nome : PyValue)     (* line 144 *)
  | TitularRemovido (cpf : str)             (* line 167 *)
  | DependenteRemovido (cpf : str)          (* line 172 *)
  | NenhumaPessoa (cpf : str)               (* line 174 *)
  | ErroRemover (e : SqliteError)           (* line 178 *)
  | CabecalhoTitulares                      (* line 188 *)
  | ImprimeTitular (l : LinhaTitular)       (* line 196 *)
  | CabecalhoDependentes                    (* line 198 *)
  | ImprimeDependente (l : LinhaDependente) (* line 207 *)
  | ErroListar (e : SqliteError).           (* line 210 *)



(** ** The world of a call *)

(** What persists between calls: the database file, the console, and the
    SQLite library with its environment.
    - [SQLITE_DEFAULT_FOREIGN_KEYS] is the compile-time option of that name:
      a connection enforces foreign keys (and so ON DELETE CASCADE) only
      when [PRAGMA foreign_keys] is on, and a new connection starts with
      this default, which is off in SQLite's and CPython's builds.  Eco.py
      never issues the pragma.
    - [faults] tells which calls into the library ([connect], [execute],
      [commit]), counted by [calls], fail for a reason outside the program
      (file cannot be opened, disk error, database locked). *)
Record World : Type := {
  disk : Database;
  SQLITE_DEFAULT_FOREIGN_KEYS : bool;
  faults : nat -> bool;
  calls : nat;
  stdout : list Message
}.

(** A [sqlite3.Connection]: the database as the open transaction sees it
    (the module opens one implicitly before INSERT and DELETE), and the
    state of [PRAGMA foreign_keys]. *)
Record Connection : Type := {
  txn : option Database;
  foreign_keys : bool
}.

(** The frame of a running function: the world and the local variable
    [conn], unbound until assigned. *)
Record Frame : Type := {
  world : World;
  conn : option Connection
}.

Definition set_disk (d : Database) (w : World) : World :=
  {| disk := d;
     SQLITE_DEFAULT_FOREIGN_KEYS := SQLITE_DEFAULT_FOREIGN_KEYS w;
     faults := faults w; calls := calls w; stdout := stdout w |}.

Definition tick (w : World) : World :=
  {| disk := disk w;
     SQLITE_DEFAULT_FOREIGN_KEYS := SQLITE_DEFAULT_FOREIGN_KEYS w;
     faults := faults w; calls := S (calls w); stdout := stdout w |}.

Definition emit (m : Message) (w : World) : World :=
  {| disk := disk w;
     SQLITE_DEFAULT_FOREIGN_KEYS := SQLITE_DEFAULT_FOREIGN_KEYS w;
     faults := faults w; calls := calls w; stdout := stdout w ++ [m] |}.

(** ** The monad of Python statements *)

(** How a statement ends: normally with a value, by [return], or by an
    exception. *)
Inductive Completion (A : Type) : Type :=
  | Normal (a : A)
  | Returned
  | Raised (e : Exception).
Arguments Normal {A} a.
Arguments Returned {A}.
Arguments Raised {A} e.

Definition Py (A : Type) : Type := Frame -> Completion A * Frame.

Definition pure {A} (a : A) : Py A := fun f => (Normal a, f).

Definition bind {A B} (m : Py A) (k : A -> Py B) : Py B :=
  fun f =>
    match m f with
    | (Normal a, f') => k a f'
    | (Returned, f') => (Returned, f')
    | (Raised e, f') => (Raised e, f')
    end.

Declare Scope py_scope.
Delimit Scope py_scope with py.
Notation "'let*' x := c 'in' k" := (bind c (fun x => k))
  (at level 10, x name, c at level 100, k at level 200) : py_scope.
Notation "c >> k" := (bind c (fun _ => k))
  (at level 100, k at level 200, right associativity) : py_scope.
Local Open Scope py_scope.

Definition raise {A} (e : Exception) : Py A := fun f => (Raised e, f).

(** The statement [return]. *)
Definition return_ {A} : Py A := fun f => (Returned, f).

Definition print (m : Message) : Py unit :=
  fun f => (Normal tt, {| world := emit m (world f); conn := conn f |}).

(** [try: body except ...: handler]; [handler e] is [None] when no except
    clause matches [e]. *)
Definition try_except {A} (body : Py A) (handler : Exception -> option (Py A))
  : Py A :=
  fun f =>
    match body f with
    | (Raised e, f') =>
        match handler e with
        | Some h => h f'
        | None => (Raised e, f')
        end
    | r => r
    end.

(** [try: body finally: final]: [final] runs however [body] ends, and an
    exception of [final] replaces the way [body] ended. *)
Definition try_finally {A} (body : Py A) (final : Py unit) : Py A :=
  fun f =>
    match body f with
    | (c, f') =>
        match final f' with
        | (Normal _, f'') => (c, f'')
        | (Returned, f'') => (Returned, f'')
        | (Raised e, f'') => (Raised e, f'')
        end
    end.

(** A call of a function in a world: a fresh frame; the caller sees the new
    world and the exception that propagated, if any. *)
Definition call (body : Py unit) (w : World) : World * option Exception :=
  match body {| world := w; conn := None |} with
  | (Raised e, f) => (world f, Some e)
  | (_, f) => (world f, None)
  end.

(** ** The [sqlite3] module *)

(** A call into the library: the world decides whether it fails for an
    outside reason; either way the call is counted. *)
Definition library_call {A} (op : Py A) : Py A :=
  fun f =>
    let w := world f in
    let f' := {| world := tick w; conn := conn f |} in
    if faults w (calls w)
    then (Raised (Sqlite3Error (OperationalError StorageFailure)), f')
    else op f'.

(** [sqlite3.connect(DB_NAME)]. *)
Definition sqlite3_connect : Py Connection :=
  library_call (fun f =>
    (Normal {| txn := None;
               foreign_keys := SQLITE_DEFAULT_FOREIGN_KEYS (world f) |}, f)).

(** [conn = ...]. *)
Definition assign_conn (c : Connection) : Py unit :=
  fun f => (Normal tt, {| world := world f; conn := Some c |}).

(** Reading the local variable [conn]. *)
Definition load_conn : Py Connection :=
  fun f =>
    match conn f with
    | Some c => (Normal c, f)
    | None => (Raised (UnboundLocalError "conn"), f)
    end.

(** The database a statement of the connection sees. *)
Definition view (c : Connection) (w : World) : Database :=
  match txn c with Some d => d | None => disk w end.

(** CREATE TABLE runs outside the implicit transaction (it takes effect at
    once when none is open); INSERT and DELETE open one; SELECT only
    reads. *)
Inductive Kind : Type := DDL | DML | Query.

Definition store (k : Kind) (d : Database) (c : Connection) (f : Frame)
  : Frame :=
  match k with
  | Query => f
  | DML =>
      {| world := world f;
         conn := Some {| txn := Some d; foreign_keys := foreign_keys c |} |}
  | DDL =>
      match txn c with
      | Some _ =>
          {| world := world f;
             conn := Some {| txn := Some d; foreign_keys := foreign_keys c |} |}
      | None => {| world := set_disk d (world f); conn := conn f |}
      end
  end.

(** [cursor.execute(...)] for a statement given by its effect on the
    database it sees: an exception, or a result and the database after.  A
    statement that fails changes nothing. *)
Definition execute {A} (k : Kind)
    (stmt : bool -> Database -> Exception + (A * Database)) : Py A :=
  let* c := load_conn in
  library_call (fun f =>
    match stmt (foreign_keys c) (view c (world f)) with
    | inl e => (Raised e, f)
    | inr (a, d) => (Normal a, store k d c f)
    end).

(** [conn.commit()]. *)
Definition conn_commit : Py unit :=
  let* c := load_conn in
  library_call (fun f =>
    (Normal tt,
     {| world := set_disk (view c (world f)) (world f);
        conn := Some {| txn := None; foreign_keys := foreign_keys c |} |})).

(** [conn.close()]: what was not committed is rolled back. *)
Definition conn_close : Py unit :=
  let* c := load_conn in
  fun f =>
    (Normal tt,
     {| world := world f;
        conn := Some {| txn := None; foreign_keys := foreign_keys c |} |}).

(** *** Binding parameters *)

Definition surrogate (c : codepoint) : bool :=
  (0xD800 <=? c)%N && (c <=? 0xDFFF)%N.

Definition utf8_encodable (s : str) : bool :=
  forallb (fun c => negb (surrogate c)) s.

(** A Python value as a statement parameter. *)
Definition bind_param (v : PyValue) : Exception + SqlValue :=
  match v with
  | PyNone => inr SqlNull
  | PyInt z => if in_int64 z then inr (SqlInteger z) else inl OverflowError
  | PyStr s => if utf8_encodable s then inr (SqlText s)
               else inl UnicodeEncodeError
  end.

Fixpoint bind_params (vs : list PyValue) : Exception + list SqlValue :=
  match vs with
  | [] => inr []
  | v :: vs' =>
      match bind_param v with
      | inl e => inl e
      | inr x =>
          match bind_params vs' with
          | inl e => inl e
          | inr xs => inr (x :: xs)
          end
      end
  end.

(** ** The SQL statements of Eco.py *)

Definition no_such_table {A} (name : string) : Exception + A :=
  inl (Sqlite3Error (OperationalError (NoSuchTable name))).

Definition constraint_failed {A} (c : Constraint) : Exception + A :=
  inl (Sqlite3Error (IntegrityError c)).

Definition is_null (v : SqlValue) : bool :=
  match v with SqlNull => true | _ => false end.

(** [CHECK(Sexo IN ('M', 'F'))]: a check fails only when it is false, and
    it is NULL for a NULL. *)
Definition check_Sexo (v : SqlValue) : bool :=
  is_null v || sql_eq v (SqlText (lit "M")) || sql_eq v (SqlText (lit "F")).

(** [CREATE TABLE IF NOT EXISTS Titulares (...)], lines 16-35. *)
Definition create_Titulares (_ : bool) (d : Database)
  : Exception + (unit * Database) :=
  inr (tt, {| tbl_Titulares :=
                match tbl_Titulares d with
                | Some rows => Some rows
                | None => Some []
                end;
              tbl_Dependentes := tbl_Dependentes d |}).

(** [CREATE TABLE IF NOT EXISTS Dependentes (...)], lines 38-56. *)
Definition create_Dependentes (_ : bool) (d : Database)
  : Exception + (unit * Database) :=
  inr (tt, {| tbl_Titulares := tbl_Titulares d;
              tbl_Dependentes :=
                match tbl_Dependentes d with
                | Some rows => Some rows
                | None => Some []
                end |}).

(** [SELECT 1 FROM Titulares WHERE CPF = ?], lines 125 and 164: one row
    per holder found. *)
Definition select_1_Titulares (key : PyValue) (_ : bool) (d : Database)
  : Exception + (list Z * Database) :=
  match tbl_Titulares d with
  | None => no_such_table "Titulares"
  | Some rows =>
      match bind_params [key] with
      | inl e => inl e
      | inr [k] =>
          inr (map (fun _ => 1%Z)
                   (List.filter (fun t => sql_eq (Titulares.CPF t) k) rows), d)
      | inr _ => inl (Sqlite3Error ProgrammingError)
      end
  end.

(** The constraint an incoming row of [Titulares] violates, if any: the
    NOT NULL columns, the check, then the primary key and the unique
    credential. *)
Definition violated_Titulares (r : Titulares.row) (rows : list Titulares.row)
  : option Constraint :=
  if is_null (Titulares.Credencial r) then Some (NotNull "Titulares.Credencial")
  else if is_null (Titulares.Nome r) then Some (NotNull "Titulares.Nome")
  else if is_null (Titulares.DtNascimento r)
       then Some (NotNull "Titulares.DtNascimento")
  else if negb (check_Sexo (Titulares.Sexo r)) then Some (Check "Sexo")
  else if existsb (fun t => sql_eq (Titulares.CPF t) (Titulares.CPF r)) rows
       then Some (Unique "Titulares.CPF")
  else if existsb (fun t => sql_eq (Titulares.Credencial t)
                                   (Titulares.Credencial r)) rows
       then Some (Unique "Titulares.Credencial")
  else None.

(** The row of [Titulares] made of 16 bound parameters, each converted by
    the affinity of its column. *)
Definition row_Titulares (xs : list SqlValue) : option Titulares.row :=
  match xs with
  | [cpf; credencial; nome; sexo; dt_nascimento; idade; faixa_ans;
     estado_civil; tipo_suplementar; cep; bairro; cidade; estado; status;
     data_inicio; data_fim] =>
      Some (Titulares.Row
              (text_affinity cpf) (text_affinity credencial)
              (text_affinity nome) (text_affinity sexo)
              (text_affinity dt_nascimento) (integer_affinity idade)
              (text_affinity faixa_ans) (text_affinity estado_civil)
              (text_affinity tipo_suplementar) (text_affinity cep)
              (text_affinity bairro) (text_affinity cidade)
              (text_affinity estado) (text_affinity status)
              (text_affinity data_inicio) (text_affinity data_fim))
  | _ => None
  end.

(** [INSERT INTO Titulares (...) VALUES (?, ... 16 times)], lines 86-97. *)
Definition insert_Titulares (params : list PyValue) (_ : bool) (d : Database)
  : Exception + (unit * Database) :=
  match tbl_Titulares d with
  | None => no_such_table "Titulares"
  | Some rows =>
      match bind_params params with
      | inl e => inl e
      | inr xs =>
          match row_Titulares xs with
          | None => inl (Sqlite3Error ProgrammingError)
          | Some r =>
              match violated_Titulares r rows with
              | Some c => constraint_failed c
              | None =>
                  inr (tt, {| tbl_Titulares := Some (rows ++ [r]);
                              tbl_Dependentes := tbl_Dependentes d |})
              end
          end
      end
  end.

Definition violated_Dependentes (r : Dependentes.row)
    (rows : list Dependentes.row) : option Constraint :=
  if is_null (Dependentes.Credencial r)
  then Some (NotNull "Dependentes.Credencial")
  else if is_null (Dependentes.Nome r) then Some (NotNull "Dependentes.Nome")
  else if is_null (Dependentes.DtNascimento r)
       then Some (NotNull "Dependentes.DtNascimento")
  else if is_null (Dependentes.GrauParentesco r)
       then Some (NotNull "Dependentes.GrauParentesco")
  else if is_null (Dependentes.CPFTitular r)
       then Some (NotNull "Dependentes.CPFTitular")
  else if negb (check_Sexo (Dependentes.Sexo r)) then Some (Check "Sexo")
  else if existsb (fun x => sql_eq (Dependentes.CPF x) (Dependentes.CPF r)) rows
       then Some (Unique "Dependentes.CPF")
  else if existsb (fun x => sql_eq (Dependentes.Credencial x)
                                   (Dependentes.Credencial r)) rows
       then Some (Unique "Dependentes.Credencial")
  else None.

(** The row of [Dependentes] made of 14 bound parameters. *)
Definition row_Dependentes (xs : list SqlValue) : option Dependentes.row :=
  match xs with
  | [cpf; credencial; nome; sexo; dt_nascimento; idade; faixa_ans;
     estado_civil; grau_parentesco; tipo_suplementar; cpf_titular; status;
     data_inicio; data_fim] =>
      Some (Dependentes.Row
              (text_affinity cpf) (text_affinity credencial)
              (text_affinity nome) (text_affinity sexo)
              (text_affinity dt_nascimento) (integer_affinity idade)
              (text_affinity faixa_ans) (text_affinity estado_civil)
              (text_affinity grau_parentesco) (text_affinity tipo_suplementar)
              (text_affinity cpf_titular) (text_affinity status)
              (text_affinity data_inicio) (text_affinity data_fim))
  | _ => None
  end.

(** The foreign key of [Dependentes]: satisfied when some holder has the
    referenced [CPF]. *)
Definition references_holder (r : Dependentes.row)
    (holders : list Titulares.row) : bool :=
  existsb (fun t => sql_eq (Titulares.CPF t) (Dependentes.CPFTitular r))
          holders.

(** [INSERT INTO Dependentes (...) VALUES (?, ... 14 times)], lines
    131-141.  The foreign key is looked at only by a connection that
    enforces foreign keys. *)
Definition insert_Dependentes (params : list PyValue) (fk : bool)
    (d : Database) : Exception + (unit * Database) :=
  match tbl_Dependentes d with
  | None => no_such_table "Dependentes"
  | Some rows =>
      match bind_params params with
      | inl e => inl e
      | inr xs =>
          match row_Dependentes xs with
          | None => inl (Sqlite3Error ProgrammingError)
          | Some r =>
              match violated_Dependentes r rows with
              | Some c => constraint_failed c
              | None =>
                  let added := {| tbl_Titulares := tbl_Titulares d;
                                  tbl_Dependentes := Some (rows ++ [r]) |} in
                  if fk then
                    match tbl_Titulares d with
                    | None => no_such_table "Titulares"
                    | Some holders =>
                        if references_holder r holders
                        then inr (tt, added)
                        else constraint_failed ForeignKey
                    end
                  else inr (tt, added)
              end
          end
      end
  end.

(** [DELETE FROM Titulares WHERE CPF = ?], line 166; the result is
    [rowcount].  ON DELETE CASCADE removes the dependents of a deleted
    holder on a connection that enforces foreign keys, and only there. *)
Definition delete_Titulares (key : PyValue) (fk : bool) (d : Database)
  : Exception + (nat * Database) :=
  match tbl_Titulares d with
  | None => no_such_table "Titulares"
  | Some rows =>
      match bind_params [key] with
      | inl e => inl e
      | inr [k] =>
          let kept :=
            List.filter (fun t => negb (sql_eq (Titulares.CPF t) k)) rows in
          let n := (length rows - length kept)%nat in
          let cascade (deps : list Dependentes.row) :=
            List.filter (fun x => negb (sql_eq (Dependentes.CPFTitular x) k))
                        deps in
          inr (n, {| tbl_Titulares := Some kept;
                     tbl_Dependentes :=
                       if fk && (0 <? n)%nat
                       then option_map cascade (tbl_Dependentes d)
                       else tbl_Dependentes d |})
      | inr _ => inl (Sqlite3Error ProgrammingError)
      end
  end.

(** [DELETE FROM Dependentes WHERE CPF = ?], line 170; the result is
    [rowcount]. *)
Definition delete_Dependentes (key : PyValue) (_ : bool) (d : Database)
  : Exception + (nat * Database) :=
  match tbl_Dependentes d with
  | None => no_such_table "Dependentes"
  | Some rows =>
      match bind_params [key] with
      | inl e => inl e
      | inr [k] =>
          let kept :=
            List.filter (fun x => negb (sql_eq (Dependentes.CPF x) k)) rows in
          inr ((length rows - length kept)%nat,
               {| tbl_Titulares := tbl_Titulares d;
                  tbl_Dependentes := Some kept |})
      | inr _ => inl (Sqlite3Error ProgrammingError)
      end
  end.

(** The order of [ORDER BY column] on rows. *)
Definition by_column {A} (column : A -> SqlValue) : relation A :=
  fun a b => sql_leb (column a) (column b).

(** [ORDER BY] a column. *)
Definition order_by {A} (column : A -> SqlValue) (rows : list A) : list A :=
  merge_sort (by_column column) rows.

Definition projecao_titular (t : Titulares.row) : LinhaTitular :=
  {| lt_CPF := Titulares.CPF t; lt_Nome := Titulares.Nome t;
     lt_Sexo := Titulares.Sexo t; lt_Idade := Titulares.Idade t;
     lt_Estado := Titulares.Estado t;
     lt_Status := Titulares.StatusSegurado t |}.

(** [SELECT CPF, Nome, Sexo, Idade, Estado, StatusSegurado FROM Titulares
    ORDER BY Nome], lines 189-193. *)
Definition select_Titulares (_ : bool) (d : Database)
  : Exception + (list LinhaTitular * Database) :=
  match tbl_Titulares d with
  | None => no_such_table "Titulares"
  | Some rows => inr (map projecao_titular (order_by Titulares.Nome rows), d)
  end.

(** [Dependentes d JOIN Titulares t ON d.CPFTitular = t.CPF]. *)
Definition join (deps : list Dependentes.row) (holders : list Titulares.row)
  : list (Dependentes.row * Titulares.row) :=
  flat_map
    (fun x =>
       map (fun t => (x, t))
           (List.filter
              (fun t => sql_eq (Dependentes.CPFTitular x) (Titulares.CPF t))
              holders))
    deps.

Definition projecao_dependente (p : Dependentes.row * Titulares.row)
  : LinhaDependente :=
  {| ld_CPF := Dependentes.CPF (fst p); ld_Nome := Dependentes.Nome (fst p);
     ld_Sexo := Dependentes.Sexo (fst p); ld_Idade := Dependentes.Idade (fst p);
     ld_Parentesco := Dependentes.GrauParentesco (fst p);
     ld_Titular := Titulares.Nome (snd p);
     ld_Status := Dependentes.StatusSegurado (fst p) |}.

(** [SELECT d.CPF, d.Nome, d.Sexo, d.Idade, d.GrauParentesco, t.Nome as
    Titular, d.StatusSegurado FROM Dependentes d JOIN Titulares t ON
    d.CPFTitular = t.CPF ORDER BY d.Nome], lines 199-204. *)
Definition select_Dependentes (_ : bool) (d : Database)
  : Exception + (list LinhaDependente * Database) :=
  match tbl_Dependentes d with
  | None => no_such_table "Dependentes"
  | Some deps =>
      match tbl_Titulares d with
      | None => no_such_table "Titulares"
      | Some holders =>
          inr (map projecao_dependente
                   (order_by (fun p => Dependentes.Nome (fst p))
                             (join deps holders)), d)
      end
  end.

(** ** The functions of Eco.py *)

Abbreviation dict := (gmap string PyValue).

(** [dados[key]]. *)
Definition getitem (dados : dict) (key : string) : Py PyValue :=
  match dados !! key with
  | Some v => pure v
  | None => raise (KeyError key)
  end.

(** [cpf_valido(v)] for a value taken from a record: [re.fullmatch] raises
    [TypeError] on what is not a string. *)
Definition call_cpf_valido (v : PyValue) : Py bool :=
  match v with
  | PyStr s => pure (cpf_valido s)
  | _ => raise TypeError
  end.

(** [for row in rows: print(...)]. *)
Fixpoint print_each {A} (line : A -> Message) (rows : list A) : Py unit :=
  match rows with
  | [] => pure tt
  | r :: rows' => print (line r) >> print_each line rows'
  end.

(** [except sqlite3.Error as e: print(...)] with the message of the
    function. *)
Definition except_Error (msg : SqliteError -> Message) (e : Exception)
  : option (Py unit) :=
  match e with
  | Sqlite3Error err => Some (print (msg err))
  | _ => None
  end.

(** [except sqlite3.IntegrityError as e: ... except sqlite3.Error as e:
    ...], lines 101-104 and 145-148. *)
Definition except_IntegrityError_Error (e : Exception) : option (Py unit) :=
  match e with
  | Sqlite3Error (IntegrityError c) =>
      Some (print (ErroIntegridade (IntegrityError c)))
  | Sqlite3Error err => Some (print (ErroBancoDados err))
  | _ => None
  end.

(** [criar_tabelas], lines 9-63. *)
Definition criar_tabelas : Py unit :=
  try_finally
    (try_except
       (let* c := sqlite3_connect in
        assign_conn c >>
        execute DDL create_Titulares >>
        execute DDL create_Dependentes >>
        conn_commit >>
        print TabelasCriadas)
       (except_Error ErroCriarTabelas))
    conn_close.

(** [inserir_titular], lines 76-106. *)
Definition inserir_titular (dados : dict) : Py unit :=
  let* cpf := getitem dados "cpf" in
  let* valido := call_cpf_valido cpf in
  if negb valido then
    (let* cpf := getitem dados "cpf" in print (CpfInvalido cpf)) >>
    return_
  else
    try_finally
      (try_except
         (let* c := sqlite3_connect in
          assign_conn c >>
          let* cpf := getitem dados "cpf" in
          let* credencial := getitem dados "credencial" in
          let* nome := getitem dados "nome" in
          let* sexo := getitem dados "sexo" in
          let* dt_nascimento := getitem dados "dt_nascimento" in
          let* idade := getitem dados "idade" in
          let* faixa_ans := getitem dados "faixa_ans" in
          let* estado_civil := getitem dados "estado_civil" in
          let* tipo_suplementar := getitem dados "tipo_suplementar" in
          let* cep := getitem dados "cep" in
          let* bairro := getitem dados "bairro" in
          let* cidade := getitem dados "cidade" in
          let* estado := getitem dados "estado" in
          let* status := getitem dados "status" in
          let* data_inicio := getitem dados "data_inicio" in
          let* data_fim := getitem dados "data_fim" in
          execute DML
            (insert_Titulares
               [cpf; credencial; nome; sexo; dt_nascimento; idade; faixa_ans;
                estado_civil; tipo_suplementar; cep; bairro; cidade; estado;
                status; data_inicio; data_fim]) >>
          conn_commit >>
          let* nome := getitem dados "nome" in
          print (TitularInserido nome))
         except_IntegrityError_Error)
      conn_close.

(** [inserir_dependente], lines 110-150. *)
Definition inserir_dependente (dados : dict) : Py unit :=
  let* cpf := getitem dados "cpf" in
  let* valido := call_cpf_valido cpf in
  if negb valido then
    (let* cpf := getitem dados "cpf" in print (CpfInvalidoDependente cpf)) >>
    return_
  else
  let* cpf_titular := getitem dados "cpf_titular" in
  let* valido := call_cpf_valido cpf_titular in
  if negb valido then
    (let* cpf_titular := getitem dados "cpf_titular" in
     print (CpfInvalidoTitular cpf_titular)) >>
    return_
  else
    try_finally
      (try_except
         (let* c := sqlite3_connect in
          assign_conn c >>
          let* cpf_titular := getitem dados "cpf_titular" in
          let* found := execute Query (select_1_Titulares cpf_titular) in
          match found with
          | [] =>
              (let* cpf_titular := getitem dados "cpf_titular" in
               print (TitularNaoEncontrado cpf_titular)) >>
              return_
          | _ :: _ =>
              let* cpf := getitem dados "cpf" in
              let* credencial := getitem dados "credencial" in
              let* nome := getitem dados "nome" in
              let* sexo := getitem dados "sexo" in
              let* dt_nascimento := getitem dados "dt_nascimento" in
              let* idade := getitem dados "idade" in
              let* faixa_ans := getitem dados "faixa_ans" in
              let* estado_civil := getitem dados "estado_civil" in
              let* grau_parentesco := getitem dados "grau_parentesco" in
              let* tipo_suplementar := getitem dados "tipo_suplementar" in
              let* cpf_titular := getitem dados "cpf_titular" in
              let* status := getitem dados "status" in
              let* data_inicio := getitem dados "data_inicio" in
              let* data_fim := getitem dados "data_fim" in
              execute DML
                (insert_Dependentes
                   [cpf; credencial; nome; sexo; dt_nascimento; idade;
                    faixa_ans; estado_civil; grau_parentesco;
                    tipo_suplementar; cpf_titular; status; data_inicio;
                    data_fim]) >>
              conn_commit >>
              let* nome := getitem dados "nome" in
              print (DependenteInserido nome)
          end)
         except_IntegrityError_Error)
      conn_close.

(** [remover_pessoa], lines 153-180. *)
Definition remover_pessoa (cpf : str) : Py unit :=
  if negb (cpf_valido cpf) then
    print (CpfInvalido (PyStr cpf)) >> return_
  else
    try_finally
      (try_except
         (let* c := sqlite3_connect in
          assign_conn c >>
          let* found := execute Query (select_1_Titulares (PyStr cpf)) in
          match found with
          | _ :: _ =>
              execute DML (delete_Titulares (PyStr cpf)) >>
              print (TitularRemovido cpf)
          | [] =>
              let* rowcount := execute DML (delete_Dependentes (PyStr cpf)) in
              if (0 <? rowcount)%nat
              then print (DependenteRemovido cpf)
              else print (NenhumaPessoa cpf)
          end >>
          conn_commit)
         (except_Error ErroRemover))
      conn_close.

(** [listar_pessoas], lines 182-212. *)
Definition listar_pessoas : Py unit :=
  try_finally
    (try_except
       (let* c := sqlite3_connect in
        assign_conn c >>
        print CabecalhoTitulares >>
        let* rows := execute Query select_Titulares in
        print_each ImprimeTitular rows >>
        print CabecalhoDependentes >>
        let* rows := execute Query select_Dependentes in
        print_each ImprimeDependente rows)
       (except_Error ErroListar))
    conn_close.

(** The five operations of the registry, as the specification names
    them. *)
Inductive Operation : Type :=
  | InitializeSchema
  | InsertHolder (dados : dict)
  | InsertDependent (dados : dict)
  | RemovePerson (cpf : str)
  | ListAll.

Definition body (op : Operation) : Py unit :=
  match op with
  | InitializeSchema => criar_tabelas
  | InsertHolder dados => inserir_titular dados
  | InsertDependent dados => inserir_dependente dados
  | RemovePerson cpf => remover_pessoa cpf
  | ListAll => listar_pessoas
  end.

(** Running an operation in a world. *)
Definition run (op : Operation) (w : World) : World * option Exception :=
  call (body op) w.

(** ** Records and the rows they become *)

(** The keys [inserir_titular] reads, in the order of the INSERT. *)
Definition campos_titular : list string :=
  ["cpf"; "credencial"; "nome"; "sexo"; "dt_nascimento"; "idade";
   "faixa_ans"; "estado_civil"; "tipo_suplementar"; "cep"; "bairro";
   "cidade"; "estado"; "status"; "data_inicio"; "data_fim"].

(** The keys [inserir_dependente] reads. *)
Definition campos_dependente : list string :=
  ["cpf"; "credencial"; "nome"; "sexo"; "dt_nascimento"; "idade";
   "faixa_ans"; "estado_civil"; "grau_parentesco"; "tipo_suplementar";
   "cpf_titular"; "status"; "data_inicio"; "data_fim"].

(** The values of a record under the given keys, when all are present. *)
Fixpoint valores (dados : dict) (campos : list string)
  : option (list PyValue) :=
  match campos with
  | [] => Some []
  | k :: campos' =>
      match dados !! k with
      | None => None
      | Some v =>
          match valores dados campos' with
          | None => None
          | Some vs => Some (v :: vs)
          end
      end
  end.

(** The parameters an INSERT receives from a record: every key present
    and every value one SQLite binds. *)
Definition parametros (dados : dict) (campos : list string)
  : option (list SqlValue) :=
  match valores dados campos with
  | None => None
  | Some vs =>
      match bind_params vs with
      | inl _ => None
      | inr xs => Some xs
      end
  end.

(** The row a holder record becomes. *)
Definition linha_titular (dados : dict) : option Titulares.row :=
  match parametros dados campos_titular with
  | Some xs => row_Titulares xs
  | None => None
  end.

(** The row a dependent record becomes. *)
Definition linha_dependente (dados : dict) : option Dependentes.row :=
  match parametros dados campos_dependente with
  | Some xs => row_Dependentes xs
  | None => None
  end.

(** A record is well formed for an operation when the keys it reads are
    present with values SQLite binds, and the tax IDs are strings. *)
Definition is_str (o : option PyValue) : bool :=
  match o with Some (PyStr _) => true | _ => false end.

Definition well_formed (op : Operation) : bool :=
  match op with
  | InsertHolder dados =>
      bool_decide (is_Some (parametros dados campos_titular)) &&
      is_str (dados !! "cpf")
  | InsertDependent dados =>
      bool_decide (is_Some (parametros dados campos_dependente)) &&
      is_str (dados !! "cpf") && is_str (dados !! "cpf_titular")
  | _ => true
  end.

(** The rows of a table that is present or absent. *)
Definition rows_of {A} (t : option (list A)) : list A :=
  match t with Some rows => rows | None => [] end.

(** Whether some holder has this tax ID. *)
Definition holder_exists (cpf : str) (d : Database) : bool :=
  existsb (fun t => sql_eq (Titulares.CPF t) (SqlText cpf))
          (rows_of (tbl_Titulares d)).

(** The holders stored under a tax ID. *)
Definition holder_rows (cpf : str) (d : Database) : list Titulares.row :=
  List.filter (fun t => sql_eq (Titulares.CPF t) (SqlText cpf))
              (rows_of (tbl_Titulares d)).

(** Whether some dependent has this tax ID. *)
Definition dependent_exists (cpf : str) (d : Database) : bool :=
  existsb (fun x => sql_eq (Dependentes.CPF x) (SqlText cpf))
          (rows_of (tbl_Dependentes d)).

(** The dependents that reference this holder. *)
Definition dependents_of (cpf : str) (d : Database) : list Dependentes.row :=
  List.filter (fun x => sql_eq (Dependentes.CPFTitular x) (SqlText cpf))
              (rows_of (tbl_Dependentes d)).

(** The dependents left when those of holder [cpf] are removed. *)
Definition cascade (cpf : str) (deps : list Dependentes.row)
  : list Dependentes.row :=
  List.filter
    (fun x => negb (sql_eq (Dependentes.CPFTitular x) (SqlText cpf))) deps.

(** The holders left when those with tax ID [cpf] are removed. *)
Definition without_holder (cpf : str) (rows : list Titulares.row)
  : list Titulares.row :=
  List.filter (fun t => negb (sql_eq (Titulares.CPF t) (SqlText cpf))) rows.

(** The dependents left when those with tax ID [cpf] are removed. *)
Definition without_dependent (cpf : str) (deps : list Dependentes.row)
  : list Dependentes.row :=
  List.filter (fun x => negb (sql_eq (Dependentes.CPF x) (SqlText cpf))) deps.

(** The schema after both CREATE TABLE IF NOT EXISTS statements. *)
Definition with_tables (d : Database) : Database :=
  {| tbl_Titulares := Some (rows_of (tbl_Titulares d));
     tbl_Dependentes := Some (rows_of (tbl_Dependentes d)) |}.

(** The world after printing several lines. *)
Definition emit_all (ms : list Message) (w : World) : World :=
  {| disk := disk w;
     SQLITE_DEFAULT_FOREIGN_KEYS := SQLITE_DEFAULT_FOREIGN_KEYS w;
     faults := faults w; calls := calls w; stdout := stdout w ++ ms |}.

(** The next [n] calls into the library meet no outside failure. *)
Definition no_fault (n : nat) (w : World) : Prop :=
  forall i, (i < n)%nat -> faults w (calls w + i) = false.

(** ** The data of the [__main__] block *)

(** [dados_titular], lines 220-237. *)
Definition dados_titular : dict :=
  list_to_map
    [("cpf", PyStr (lit "12930888466")); ("credencial", PyStr (lit "CRED001"));
     ("nome", PyStr (lit "Julius Cesar")); ("sexo", PyStr (lit "M"));
     ("dt_nascimento", PyStr (lit "2001-05-10")); ("idade", PyInt 24);
     ("faixa_ans", PyStr (lit "Adulto"));
     ("estado_civil", PyStr (lit "Solteiro"));
     ("tipo_suplementar", PyStr (lit "Ouro")); ("cep", PyStr (lit "12345678"));
     ("bairro", PyStr (lit "Timbi")); ("cidade", PyStr (lit "Camaragibe"));
     ("estado", PyStr (lit "PE")); ("status", PyStr (lit "Ativo"));
     ("data_inicio", PyStr (lit "2025-01-01")); ("data_fim", PyNone)].

(** [dados_dependente], lines 242-257. *)
Definition dados_dependente : dict :=
  list_to_map
    [("cpf", PyStr (lit "21223344556")); ("credencial", PyStr (lit "CRED002"));
     ("nome", PyStr (lit "Maria Silva")); ("sexo", PyStr (lit "F"));
     ("dt_nascimento", PyStr (lit "2012-03-20")); ("idade", PyInt 13);
     ("faixa_ans", PyStr (lit "Infantil"));
     ("estado_civil", PyStr (lit "Solteiro"));
     ("grau_parentesco", PyStr (lit "Prima"));
     ("tipo_suplementar", PyStr (lit "Ouro"));
     ("cpf_titular", PyStr (lit "12930888466"));
     ("status", PyStr (lit "Ativo"));
     ("data_inicio", PyStr (lit "2025-01-01")); ("data_fim", PyNone)].

(** A world with the given file, the stock SQLite build and no outside
    failure. *)
Definition healthy (d : Database) : World :=
  {| disk := d; SQLITE_DEFAULT_FOREIGN_KEYS := false;
     faults := fun _ => false; calls := 0; stdout := [] |}.

(** A world like [healthy], with an SQLite built to enforce foreign keys
    by default. *)
Definition enforcing (d : Database) : World :=
  {| disk := d; SQLITE_DEFAULT_FOREIGN_KEYS := true;
     faults := fun _ => false; calls := 0; stdout := [] |}.

(** The world in which only the call number [n] into the library fails. *)
Definition failing_at (n : nat) (d : Database) : World :=
  {| disk := d; SQLITE_DEFAULT_FOREIGN_KEYS := false;
     faults := fun i => (i =? n)%nat; calls := 0; stdout := [] |}.

(** Running operations one after the other; the exceptions are those the
    caller would see if it went on after each. *)
Fixpoint run_all (ops : list Operation) (w : World)
  : World * list (option Exception) :=
  match ops with
  | [] => (w, [])
  | op :: ops' =>
      let (w1, e) := run op w in
      let (w2, es) := run_all ops' w1 in
      (w2, e :: es)
  end.

(** The calls of the [__main__] block, lines 217-275. *)
Definition main_block : list Operation :=
  [InitializeSchema; InsertHolder dados_titular;
   InsertDependent dados_dependente; ListAll;
   RemovePerson (lit "21223344556"); ListAll;
   RemovePerson (lit "12930888466"); ListAll].

(** The file after [criar_tabelas], [inserir_titular(dados_titular)] and
    [inserir_dependente(dados_dependente)], as in the [__main__] block. *)
Definition main_file : Database :=
  disk (fst (run_all [InitializeSchema; InsertHolder dados_titular;
                      InsertDependent dados_dependente]
                     (healthy empty_file))).

(** The file after [criar_tabelas] alone: both tables, no row. *)
Definition created_file : Database :=
  disk (fst (run InitializeSchema (healthy empty_file))).

(** The row stored for [dados_titular]. *)
Definition julius : Titulares.row :=
  match linha_titular dados_titular with
  | Some r => r
  | None =>
      Titulares.Row SqlNull SqlNull SqlNull SqlNull SqlNull SqlNull SqlNull
        SqlNull SqlNull SqlNull SqlNull SqlNull SqlNull SqlNull SqlNull
        SqlNull
  end.

(** The row stored for [dados_dependente]. *)
Definition maria : Dependentes.row :=
  match linha_dependente dados_dependente with
  | Some r => r
  | None =>
      Dependentes.Row SqlNull SqlNull SqlNull SqlNull SqlNull SqlNull SqlNull
        SqlNull SqlNull SqlNull SqlNull SqlNull SqlNull SqlNull
  end.


(** The file left by [remover_pessoa] of the holder of [main_file] under
    the stock build. *)
Definition orphan_file : Database :=
  disk (fst (run (RemovePerson (lit "12930888466")) (healthy main_file))).


(** A statement that never ends by raising an [sqlite3.Error]. *)
Definition no_sqlite {A} (m : Py A) : Prop :=
  forall f e, fst (m f) <> Raised (Sqlite3Error e).

(** A handler that catches every [sqlite3.Error] by printing a line, and
    nothing else. *)
Definition catches_sqlite (h : Exception -> option (Py unit)) : Prop :=
  forall e,
    match e with
    | Sqlite3Error _ => exists m, h e = Some (print m)
    | _ => h e = None
    end.



(** Eleven ARABIC-INDIC DIGIT ZERO (U+0660). *)
Definition arabic_zeros : str := repeat 0x660%N 11.

(** ** What an operation does to the file *)

(** The file [d'] is [d] with the row of the record as a new last row of
    [Titulares]. *)
Definition holder_added (dados : dict) (d d' : Database) : Prop :=
  exists rows r T,
    tbl_Titulares d = Some rows /\ linha_titular dados = Some r /\
    dados !! "cpf" = Some (PyStr T) /\ cpf_valido T = true /\
    violated_Titulares r rows = None /\
    d' = {| tbl_Titulares := Some (rows ++ [r]);
            tbl_Dependentes := tbl_Dependentes d |}.

(** The file [d'] is [d] with the row of the record as a new last row of
    [Dependentes], its holder being in [Titulares]. *)
Definition dependent_added (dados : dict) (d d' : Database) : Prop :=
  exists deps r c h,
    tbl_Dependentes d = Some deps /\ linha_dependente dados = Some r /\
    dados !! "cpf" = Some (PyStr c) /\ cpf_valido c = true /\
    dados !! "cpf_titular" = Some (PyStr h) /\ cpf_valido h = true /\
    holder_exists h d = true /\
    violated_Dependentes r deps = None /\
    d' = {| tbl_Titulares := tbl_Titulares d;
            tbl_Dependentes := Some (deps ++ [r]) |}.

(** The file [d'] is [d] without the holders of tax ID [cpf] and, on a
    connection that enforces foreign keys, without their dependents. *)
Definition holder_removed (cpf : str) (fk : bool) (d d' : Database) : Prop :=
  holder_exists cpf d = true /\
  d' = {| tbl_Titulares :=
            Some (without_holder cpf (rows_of (tbl_Titulares d)));
          tbl_Dependentes :=
            if fk then option_map (cascade cpf) (tbl_Dependentes d)
            else tbl_Dependentes d |}.

(** The file [d'] is [d] without the dependents of tax ID [cpf], which is
    no holder's. *)
Definition dependent_removed (cpf : str) (d d' : Database) : Prop :=
  holder_exists cpf d = false /\
  d' = {| tbl_Titulares := tbl_Titulares d;
          tbl_Dependentes :=
            Some (without_dependent cpf (rows_of (tbl_Dependentes d))) |}.

(** ** More sample data *)

(** The file after [criar_tabelas] and [inserir_titular(dados_titular)]. *)
Definition holder_file : Database :=
  disk (fst (run_all [InitializeSchema; InsertHolder dados_titular]
                     (healthy empty_file))).


(** ** Invariants of the file *)

(** A stored value that is a tax ID matching the pattern. *)
Definition valid_cpf (v : SqlValue) : bool :=
  match v with SqlText s => cpf_valido s | _ => false end.

Definition is_text (v : SqlValue) : bool :=
  match v with SqlText _ => true | _ => false end.

(** The rows of a table are well keyed: every tax ID matches the pattern,
    no two rows have the same tax ID, every credential is text and no two
    rows have the same credential. *)
Definition keyed {A} (cpf credencial : A -> SqlValue) (rows : list A)
  : Prop :=
  Forall (fun a => valid_cpf (cpf a) = true) rows /\
  NoDup (map cpf rows) /\
  Forall (fun a => is_text (credencial a) = true) rows /\
  NoDup (map credencial rows).

(** Both tables are well keyed, and every dependent names its holder by a
    tax ID that matches the pattern. *)
Definition keys_ok (d : Database) : Prop :=
  keyed Titulares.CPF Titulares.Credencial (rows_of (tbl_Titulares d)) /\
  keyed Dependentes.CPF Dependentes.Credencial (rows_of (tbl_Dependentes d)) /\
  Forall (fun x => valid_cpf (Dependentes.CPFTitular x) = true)
         (rows_of (tbl_Dependentes d)).

(** Referential integrity: every dependent references a holder that is in
    [Titulares]. *)
Definition references_ok (d : Database) : Prop :=
  Forall (fun x => references_holder x (rows_of (tbl_Titulares d)) = true)
         (rows_of (tbl_Dependentes d)).

(** The operations that cannot leave a dependent without its holder in this
    world: all but the removal of a holder that has dependents on a
    connection that does not enforce foreign keys. *)
Definition keeps_references (op : Operation) (w : World) : bool :=
  match op with
  | RemovePerson cpf =>
      SQLITE_DEFAULT_FOREIGN_KEYS w
      || negb (holder_exists cpf (disk w))
      || match dependents_of cpf (disk w) with [] => true | _ => false end
  | _ => true
  end.

(** ** Failures *)

(** The operations that reach their [try] block: those whose tax IDs are
    strings that match the pattern. *)
Definition valid_str (o : option PyValue) : bool :=
  match o with Some (PyStr s) => cpf_valido s | _ => false end.

Definition reaches_store (op : Operation) : bool :=
  match op with
  | InsertHolder dados => valid_str (dados !! "cpf")
  | InsertDependent dados =>
      valid_str (dados !! "cpf") && valid_str (dados !! "cpf_titular")
  | RemovePerson cpf => cpf_valido cpf
  | InitializeSchema | ListAll => true
  end.

(** The error a line reports, for the lines printed by an except clause. *)
Definition error_of (m : Message) : option SqliteError :=
  match m with
  | ErroCriarTabelas e | ErroIntegridade e | ErroBancoDados e
  | ErroRemover e | ErroListar e => Some e
  | _ => None
  end.

(** The first of the keys that the record lacks. *)
Fixpoint first_missing (dados : dict) (campos : list string)
  : option string :=
  match campos with
  | [] => None
  | k :: campos' =>
      match dados !! k with
      | None => Some k
      | Some _ => first_missing dados campos'
      end
  end.

(** [dados_titular] with an age that does not fit in 64 bits. *)
Definition dados_idade_enorme : dict :=
  <["idade" := PyInt (2 ^ 63)]> dados_titular.

(** [dados_titular] without the keys [cep] and [estado]. *)
Definition dados_sem_cep : dict :=
  delete "cep" (delete "estado" dados_titular).

(** * Properties *)

(** ** The [__main__] block *)

(** What the block prints on a new file when nothing fails: the holder and
    the dependent are listed, then the holder alone, then nobody. *)
Example main_block_scenario :
  let r := run_all main_block (healthy empty_file) in
  stdout (fst r) =
    [TabelasCriadas;
     TitularInserido (PyStr (lit "Julius Cesar"));
     DependenteInserido (PyStr (lit "Maria Silva"));
     CabecalhoTitulares; ImprimeTitular (projecao_titular julius);
     CabecalhoDependentes;
     ImprimeDependente (projecao_dependente (maria, julius));
     DependenteRemovido (lit "21223344556");
     CabecalhoTitulares; ImprimeTitular (projecao_titular julius);
     CabecalhoDependentes;
     TitularRemovido (lit "12930888466");
     CabecalhoTitulares; CabecalhoDependentes] /\
  snd r = repeat None 8 /\
  disk (fst r) = created_file.
Proof. repeat split; vm_compute; reflexivity. Qed.

(** ** The tax ID pattern *)

Lemma match_digits_Some_nil n s :
  match_digits n s = Some [] <->
  length s = n /\ forallb Py_UNICODE_ISDECIMAL s = true.
Proof.
  revert s; induction n as [|n IH]; intros [|c s]; simpl.
  - split; [intros _; split; reflexivity | reflexivity].
  - split; [discriminate | intros [H _]; discriminate].
  - split; [discriminate | intros [H _]; discriminate].
  - destruct (Py_UNICODE_ISDECIMAL c); simpl.
    + rewrite IH. split; intros [H1 H2]; split; congruence.
    + split; [discriminate | intros [_ H]; discriminate].
Qed.

Lemma fullmatch_d11_decimal s : fullmatch_d11 s = eleven_decimal_digits s.
Proof.
  unfold fullmatch_d11, eleven_decimal_digits.
  destruct (match_digits 11 s) as [[|c r]|] eqn:E.
  - apply match_digits_Some_nil in E as [-> ->]. reflexivity.
  - symmetry. apply not_true_is_false. intros H.
    apply andb_true_iff in H as [H1 H2]. apply Nat.eqb_eq in H1.
    assert (match_digits 11 s = Some []) as E'
      by (apply match_digits_Some_nil; split; assumption).
    congruence.
  - symmetry. apply not_true_is_false. intros H.
    apply andb_true_iff in H as [H1 H2]. apply Nat.eqb_eq in H1.
    assert (match_digits 11 s = Some []) as E'
      by (apply match_digits_Some_nil; split; assumption).
    congruence.
Qed.

Lemma ascii_digit_decimal c :
  ascii_digit c = true -> Py_UNICODE_ISDECIMAL c = true.
Proof.
  intros H. unfold Py_UNICODE_ISDECIMAL, decimal_ranges.
  cbn [existsb]. unfold ascii_digit in H. unfold in_range at 1.
  cbn [fst snd]. rewrite H. reflexivity.
Qed.

(** C2 (amended).  [cpf_valido] holds exactly of the strings of 11 decimal
    characters, the characters of Unicode category Nd that [\d] matches;
    every string of exactly 11 ASCII digits, leading zeros included, is one
    of them. *)
Theorem cpf_valido_eleven_decimal_digits (s : str) :
  cpf_valido s = eleven_decimal_digits s /\
  (eleven_ascii_digits s = true -> cpf_valido s = true).
Proof.
  split; [apply fullmatch_d11_decimal|].
  unfold cpf_valido. rewrite fullmatch_d11_decimal.
  unfold eleven_ascii_digits, eleven_decimal_digits.
  intros H. apply andb_true_iff in H as [-> H]. simpl.
  rewrite forallb_forall in *. intros c Hc. apply ascii_digit_decimal; auto.
Qed.

Lemma cpf_valido_eleven_decimal_digits_witness :
  eleven_ascii_digits (lit "00000000191") = true /\
  cpf_valido (lit "00000000191") = true.
Proof.
  split; [reflexivity|].
  apply (cpf_valido_eleven_decimal_digits (lit "00000000191")). reflexivity.
Defined.

(** C2, as stated, fails: eleven Arabic-Indic zeros are not ASCII digits,
    and [cpf_valido] accepts them. *)
Lemma cpf_valido_accepts_non_ascii :
  cpf_valido arabic_zeros = true /\ eleven_ascii_digits arabic_zeros = false.
Proof. split; reflexivity. Qed.

(** ** Running the functions symbolically *)

(** Unfolds the monad and the library calls as far as the next test that
    depends on the world or on the record. *)
Ltac py_eval :=
  cbv [try_finally try_except bind pure raise return_ print sqlite3_connect
       assign_conn load_conn execute conn_commit conn_close library_call
       call_cpf_valido negb except_Error except_IntegrityError_Error store
       tick emit set_disk view];
  cbn [world conn disk SQLITE_DEFAULT_FOREIGN_KEYS faults calls stdout txn
       foreign_keys fst snd].

Section NoFault.
Variable w : World.

Lemma no_fault_0 n : no_fault (S n) w -> faults w (calls w) = false.
Proof.
  intros H. rewrite <- (Nat.add_0_r (calls w)). apply H. lia.
Qed.

Lemma no_fault_1 n : no_fault (S (S n)) w -> faults w (S (calls w)) = false.
Proof.
  intros H. replace (S (calls w)) with (calls w + 1)%nat by lia.
  apply H. lia.
Qed.

Lemma no_fault_2 n :
  no_fault (S (S (S n))) w -> faults w (S (S (calls w))) = false.
Proof.
  intros H. replace (S (S (calls w))) with (calls w + 2)%nat by lia.
  apply H. lia.
Qed.

Lemma no_fault_3 n :
  no_fault (S (S (S (S n)))) w -> faults w (S (S (S (calls w)))) = false.
Proof.
  intros H. replace (S (S (S (calls w)))) with (calls w + 3)%nat by lia.
  apply H. lia.
Qed.
End NoFault.

Lemma no_fault_healthy n d : no_fault n (healthy d).
Proof. intros i _. reflexivity. Qed.

Lemma bind_params_Forall2 vs xs :
  bind_params vs = inr xs -> Forall2 (fun v x => bind_param v = inr x) vs xs.
Proof.
  revert xs; induction vs as [|v vs IH]; intros xs; simpl.
  - intros [= <-]. constructor.
  - destruct (bind_param v) as [|x] eqn:Bx; [discriminate|].
    destruct (bind_params vs) as [|xs'] eqn:Bxs; [discriminate|].
    intros [= <-]. constructor; auto.
Qed.

(** Splits [valores dados campos = Some vs] into one lookup per key. *)
Ltac lookups V :=
  cbn [valores] in V;
  repeat match type of V with
  | context [?d !! ?k] =>
      let E := fresh "E" in destruct (d !! k) eqn:E; [|discriminate V]
  end;
  cbv beta iota in V.

(** Splits [bind_params vs = inr xs], for a list [vs] of known length,
    into one binding per value. *)
Ltac bound B :=
  let B' := fresh "B" in
  pose proof (bind_params_Forall2 _ _ B) as B';
  repeat match goal with
  | H : Forall2 _ (_ :: _) _ |- _ => inversion H; clear H; subst
  | H : Forall2 _ [] _ |- _ => inversion H; clear H; subst
  end.

(** From [linha_titular dados = Some r] (or [linha_dependente]): the value
    under each key, its binding, and the row made of them. *)
Ltac record Hr :=
  unfold linha_titular, linha_dependente, parametros in Hr;
  let V := fresh "V" in
  let B := fresh "B" in
  destruct (valores _ _) as [?vs|] eqn:V in Hr; [|discriminate Hr];
  destruct (bind_params _) as [|?xs] eqn:B in Hr; [discriminate Hr|];
  unfold campos_titular, campos_dependente in V; lookups V;
  injection V as V; subst; bound B.

Lemma bind_param_PyStr s x : bind_param (PyStr s) = inr x -> x = SqlText s.
Proof.
  simpl. destruct (utf8_encodable s); [intros [= <-]; reflexivity|discriminate].
Qed.


(** ** Inserting a holder *)

Lemma filter_existsb_false {A} (p : A -> bool) (l : list A) :
  existsb p l = false -> List.filter p l = [].
Proof.
  induction l as [|a l IH]; simpl; [reflexivity|].
  destruct (p a); simpl; [discriminate|auto].
Qed.

Lemma violated_Titulares_duplicate r rows :
  existsb (fun t => sql_eq (Titulares.CPF t) (Titulares.CPF r)) rows = true \/
  existsb (fun t => sql_eq (Titulares.Credencial t) (Titulares.Credencial r))
          rows = true ->
  exists c, violated_Titulares r rows = Some c.
Proof.
  intros H. unfold violated_Titulares.
  repeat match goal with
  | |- context [if ?b then _ else _] => destruct b eqn:?; eauto
  end.
  destruct H; congruence.
Qed.

Lemma linha_titular_CPF dados T r :
  dados !! "cpf" = Some (PyStr T) -> linha_titular dados = Some r ->
  Titulares.CPF r = SqlText T.
Proof.
  intros Hcpf Hr. record Hr. injection Hcpf as ->.
  match goal with H : bind_param (PyStr T) = inr _ |- _ =>
    apply bind_param_PyStr in H; subst end.
  cbn [row_Titulares] in Hr. injection Hr as <-. reflexivity.
Qed.


(** C5.  A holder record whose tax ID is already stored (or whose
    credential is already used) is refused: the call reports an integrity
    error and raises nothing, and the file is left as it was, so the holders
    stored under that tax ID are the same rows as before: one row stays one
    row, and it is not updated. *)
Theorem inserir_titular_duplicate
    (dados : dict) (w : World) (rows : list Titulares.row) (T : str)
    (r : Titulares.row) :
  dados !! "cpf" = Some (PyStr T) ->
  cpf_valido T = true ->
  linha_titular dados = Some r ->
  no_fault 2 w ->
  tbl_Titulares (disk w) = Some rows ->
  holder_exists T (disk w) = true \/
  existsb (fun t => sql_eq (Titulares.Credencial t) (Titulares.Credencial r))
          rows = true ->
  let w' := fst (run (InsertHolder dados) w) in
  snd (run (InsertHolder dados) w) = None /\
  (exists c, stdout w' = stdout w ++ [ErroIntegridade (IntegrityError c)]) /\
  disk w' = disk w /\
  (forall t, holder_rows T (disk w) = [t] -> holder_rows T (disk w') = [t]).
Proof.
  intros Hcpf HT Hr F Hrows Hex.
  pose proof (no_fault_0 _ _ F) as F0. pose proof (no_fault_1 _ _ F) as F1.
  assert (exists c, violated_Titulares r rows = Some c) as [c Hc].
  { apply violated_Titulares_duplicate.
    rewrite (linha_titular_CPF _ _ _ Hcpf Hr).
    unfold holder_exists in Hex. rewrite Hrows in Hex. exact Hex. }
  assert (run (InsertHolder dados) w =
          (emit (ErroIntegridade (IntegrityError c)) (tick (tick w)), None))
    as Hrun.
  { unfold run, call, body, inserir_titular, getitem.
    record Hr. injection Hcpf as ->.
    py_eval. rewrite HT. py_eval. rewrite F0. py_eval. rewrite F1.
    unfold insert_Titulares. rewrite Hrows.
    match goal with B : bind_params _ = inr _ |- _ => rewrite B end.
    rewrite Hr, Hc. reflexivity. }
  cbv zeta. rewrite Hrun. cbn [fst snd emit tick stdout disk].
  repeat split; eauto.
Qed.

Lemma inserir_titular_duplicate_witness :
  snd (run (InsertHolder dados_titular) (healthy main_file)) = None /\
  disk (fst (run (InsertHolder dados_titular) (healthy main_file))) = main_file.
Proof.
  destruct (inserir_titular_duplicate dados_titular (healthy main_file)
              (rows_of (tbl_Titulares main_file)) (lit "12930888466") julius)
    as (Hnone & _ & Hdisk & _).
  - reflexivity.
  - reflexivity.
  - reflexivity.
  - apply no_fault_healthy.
  - reflexivity.
  - left. reflexivity.
  - split; [exact Hnone | exact Hdisk].
Defined.


Lemma sql_eq_SqlText_refl s : sql_eq (SqlText s) (SqlText s) = true.
Proof. simpl. apply bool_decide_eq_true. reflexivity. Qed.




(** ** Inserting a dependent *)

Lemma decimal_not_surrogate c :
  Py_UNICODE_ISDECIMAL c = true -> surrogate c = false.
Proof.
  unfold Py_UNICODE_ISDECIMAL, decimal_ranges, in_range, surrogate.
  cbn [existsb fst snd]. intros H.
  destruct (N.leb_spec 0xD800 c) as [Hlo|]; [|reflexivity].
  destruct (N.leb_spec c 0xDFFF) as [Hhi|]; [|reflexivity].
  exfalso.
  repeat (apply orb_true_iff in H as [H|H];
          [apply andb_true_iff in H as [H1 H2];
           apply N.leb_le in H1; apply N.leb_le in H2; lia|]).
  discriminate.
Qed.

Lemma cpf_valido_utf8_encodable s :
  cpf_valido s = true -> utf8_encodable s = true.
Proof.
  unfold cpf_valido. rewrite fullmatch_d11_decimal.
  unfold eleven_decimal_digits, utf8_encodable.
  intros H. apply andb_true_iff in H as [_ H].
  rewrite forallb_forall in *. intros c Hc.
  rewrite (decimal_not_surrogate c); auto.
Qed.




(** ** Removing a person *)

Lemma filter_negb_existsb_false {A} (p : A -> bool) (l : list A) :
  existsb p l = false -> List.filter (fun a => negb (p a)) l = l.
Proof.
  induction l as [|a l IH]; simpl; [reflexivity|].
  destruct (p a); simpl; [discriminate|]. intros H. f_equal. auto.
Qed.

Lemma filter_length_le {A} (p : A -> bool) (l : list A) :
  (length (List.filter p l) <= length l)%nat.
Proof.
  induction l as [|a l IH]; simpl; [lia|]. destruct (p a); simpl; lia.
Qed.

Lemma filter_negb_existsb_true {A} (p : A -> bool) (l : list A) :
  existsb p l = true ->
  (0 <? length l - length (List.filter (fun a => negb (p a)) l))%nat = true.
Proof.
  intros H. apply Nat.ltb_lt.
  induction l as [|a l IH]; simpl in *; [discriminate|].
  pose proof (filter_length_le (fun a => negb (p a)) l).
  destruct (p a); simpl in *; [lia|]. specialize (IH H). lia.
Qed.

Lemma existsb_filter_cons {A} (p : A -> bool) (l : list A) :
  existsb p l = true -> exists a l', List.filter p l = a :: l'.
Proof.
  induction l as [|a l IH]; simpl; [discriminate|].
  destruct (p a); simpl; eauto.
Qed.

Lemma existsb_filter_negb {A} (p : A -> bool) (l : list A) :
  existsb p (List.filter (fun a => negb (p a)) l) = false.
Proof.
  induction l as [|a l IH]; simpl; [reflexivity|].
  destruct (p a) eqn:E; simpl; [assumption|]. rewrite E. assumption.
Qed.

(** [remover_pessoa] on the tax ID of a holder, when no call fails. *)
Lemma remover_pessoa_holder cpf w :
  cpf_valido cpf = true ->
  no_fault 4 w ->
  holder_exists cpf (disk w) = true ->
  let w' := fst (run (RemovePerson cpf) w) in
  snd (run (RemovePerson cpf) w) = None /\
  stdout w' = stdout w ++ [TitularRemovido cpf] /\
  tbl_Titulares (disk w') =
    Some (without_holder cpf (rows_of (tbl_Titulares (disk w)))) /\
  tbl_Dependentes (disk w') =
    if SQLITE_DEFAULT_FOREIGN_KEYS w
    then option_map (cascade cpf) (tbl_Dependentes (disk w))
    else tbl_Dependentes (disk w).
Proof.
  intros V F Hex.
  pose proof (no_fault_0 _ _ F) as F0. pose proof (no_fault_1 _ _ F) as F1.
  pose proof (no_fault_2 _ _ F) as F2. pose proof (no_fault_3 _ _ F) as F3.
  pose proof (cpf_valido_utf8_encodable _ V) as U.
  cbv zeta. unfold run, call, body, remover_pessoa. rewrite V.
  py_eval. rewrite F0. py_eval. rewrite F1.
  unfold select_1_Titulares, holder_exists in *.
  cbn [bind_params bind_param]. rewrite U.
  destruct (tbl_Titulares (disk w)) as [rows|] eqn:Hrows; [|discriminate].
  cbn [rows_of] in *.
  destruct (existsb_filter_cons _ _ Hex) as (a & l' & ->).
  cbn [map]. py_eval. rewrite F2.
  unfold delete_Titulares. rewrite Hrows. cbn [bind_params bind_param].
  rewrite U. cbv zeta.
  rewrite (filter_negb_existsb_true _ _ Hex), andb_true_r.
  py_eval. rewrite F3.
  cbn [fst snd world disk stdout tbl_Titulares tbl_Dependentes].
  repeat split.
Qed.



(** C1, as the code has it with the stock SQLite build, whose connections
    do not enforce foreign keys: removing a holder deletes the holder rows
    and prints that the holder and its dependents were removed, and every
    dependent row that referenced the holder is still in [Dependentes]. *)
Theorem remover_pessoa_leaves_dependents (cpf : str) (w : World) :
  cpf_valido cpf = true ->
  no_fault 4 w ->
  SQLITE_DEFAULT_FOREIGN_KEYS w = false ->
  holder_exists cpf (disk w) = true ->
  let w' := fst (run (RemovePerson cpf) w) in
  snd (run (RemovePerson cpf) w) = None /\
  stdout w' = stdout w ++ [TitularRemovido cpf] /\
  holder_exists cpf (disk w') = false /\
  dependents_of cpf (disk w') = dependents_of cpf (disk w).
Proof.
  intros V F Hfk Hex. cbv zeta.
  destruct (remover_pessoa_holder cpf w V F Hex) as (Hnone & Hout & Ht & Hd).
  rewrite Hfk in Hd. unfold holder_exists, dependents_of.
  rewrite Ht, Hd. cbn [rows_of]. unfold without_holder.
  rewrite existsb_filter_negb. auto.
Qed.

(** On the data of the [__main__] block: the dependent row is still there
    after the holder is removed, and the listing that follows does not show
    it. *)
Lemma remover_pessoa_leaves_dependents_witness :
  dependents_of (lit "12930888466") main_file = [maria] /\
  stdout (fst (run (RemovePerson (lit "12930888466")) (healthy main_file))) =
    [TitularRemovido (lit "12930888466")] /\
  dependents_of (lit "12930888466") orphan_file = [maria] /\
  stdout (fst (run ListAll (healthy orphan_file))) =
    [CabecalhoTitulares; CabecalhoDependentes].
Proof.
  destruct (remover_pessoa_leaves_dependents (lit "12930888466")
              (healthy main_file)) as (_ & Hout & _ & Hdeps).
  - reflexivity.
  - apply no_fault_healthy.
  - reflexivity.
  - reflexivity.
  - split; [reflexivity|]. split; [exact Hout|].
    split; [exact Hdeps|reflexivity].
Defined.

(** The cascade does happen on a connection that enforces foreign keys. *)
Lemma remover_pessoa_cascades_when_enforced :
  disk (fst (run (RemovePerson (lit "12930888466")) (enforcing main_file))) =
  created_file.
Proof. vm_compute. reflexivity. Qed.

(** ** Creating the tables *)







(** ** Listing *)

Lemma str_leb_total x y : str_leb x y = true \/ str_leb y x = true.
Proof.
  revert y; induction x as [|a x IH]; intros [|b y]; simpl; auto.
  destruct (N.ltb_spec a b), (N.ltb_spec b a), (N.eqb_spec a b),
    (N.eqb_spec b a); simpl; auto; try lia.
Qed.

Lemma str_leb_trans x y z :
  str_leb x y = true -> str_leb y z = true -> str_leb x z = true.
Proof.
  revert y z; induction x as [|a x IH]; intros [|b y] [|c z]; simpl; auto;
    try discriminate.
  destruct (N.ltb_spec a b), (N.ltb_spec b c), (N.ltb_spec a c),
    (N.eqb_spec a b), (N.eqb_spec b c), (N.eqb_spec a c);
    simpl; auto; try discriminate; try lia.
  apply IH.
Qed.

Lemma sql_leb_total a b : sql_leb a b = true \/ sql_leb b a = true.
Proof.
  destruct a as [|x|x], b as [|y|y]; simpl; auto.
  - destruct (Z.leb_spec x y), (Z.leb_spec y x); auto; lia.
  - apply str_leb_total.
Qed.

Lemma sql_leb_trans a b c :
  sql_leb a b = true -> sql_leb b c = true -> sql_leb a c = true.
Proof.
  destruct a, b, c; simpl; auto; try discriminate.
  - intros H1 H2. apply Z.leb_le in H1, H2. apply Z.leb_le. lia.
  - apply str_leb_trans.
Qed.

Section OrderBy.
Context {A : Type} (column : A -> SqlValue).

#[local] Instance by_column_total : Total (by_column column).
Proof.
  intros a b. unfold by_column.
  destruct (sql_leb_total (column a) (column b)) as [H|H]; rewrite H;
    simpl; auto.
Qed.

#[local] Instance by_column_trans : Transitive (by_column column).
Proof.
  intros a b c. unfold by_column. rewrite !Is_true_true.
  apply sql_leb_trans.
Qed.



End OrderBy.

Lemma print_each_spec {A} (line : A -> Message) rows f :
  print_each line rows f =
    (Normal tt,
     {| world := emit_all (map line rows) (world f); conn := conn f |}).
Proof.
  revert f; induction rows as [|r rows IH]; intros [w c]; simpl.
  - unfold pure, emit_all. cbn. rewrite app_nil_r. destruct w; reflexivity.
  - unfold bind, print. cbn. rewrite IH. unfold emit_all, emit. cbn.
    rewrite <- app_assoc. reflexivity.
Qed.



Lemma listar_pessoas_disk w : disk (fst (run ListAll w)) = disk w.
Proof.
  unfold run, call, body, listar_pessoas, select_Titulares, select_Dependentes.
  py_eval. destruct (faults w (calls w)); [reflexivity|].
  py_eval. destruct (faults w (S (calls w))); [reflexivity|].
  destruct (tbl_Titulares (disk w)) as [holders|] eqn:Hh; [|reflexivity].
  py_eval. rewrite print_each_spec. unfold emit_all. py_eval.
  destruct (faults w (S (S (calls w)))); [reflexivity|].
  destruct (tbl_Dependentes (disk w)) as [deps|]; [|reflexivity].
  rewrite Hh. py_eval. rewrite print_each_spec. reflexivity.
Qed.





(** ** Exceptions at the boundary of an operation *)

Section NoSqlite.
Context {A B : Type}.

Lemma no_sqlite_pure (a : A) : no_sqlite (pure a).
Proof. intros f e. discriminate. Qed.

Lemma no_sqlite_return : no_sqlite (@return_ A).
Proof. intros f e. discriminate. Qed.

Lemma no_sqlite_bind (m : Py A) (k : A -> Py B) :
  no_sqlite m -> (forall a, no_sqlite (k a)) -> no_sqlite (bind m k).
Proof.
  intros Hm Hk f e. unfold bind. specialize (Hm f).
  destruct (m f) as [[a| |e'] f']; cbn in *.
  - apply Hk.
  - discriminate.
  - intros [= ->]. apply (Hm e). reflexivity.
Qed.
End NoSqlite.

Lemma no_sqlite_print m : no_sqlite (print m).
Proof. intros f e. discriminate. Qed.

Lemma no_sqlite_getitem dados k : no_sqlite (getitem dados k).
Proof. intros f e. unfold getitem. destruct (dados !! k); discriminate. Qed.

Lemma no_sqlite_call_cpf_valido v : no_sqlite (call_cpf_valido v).
Proof. intros f e. destruct v; discriminate. Qed.

Lemma conn_close_no_sqlite : no_sqlite conn_close.
Proof.
  intros f e. unfold conn_close, bind, load_conn.
  destruct (conn f); discriminate.
Qed.

Lemma no_sqlite_try_finally {A} (m : Py A) :
  no_sqlite m -> no_sqlite (try_finally m conn_close).
Proof.
  intros Hm f e. unfold try_finally. specialize (Hm f).
  destruct (m f) as [c f'].
  pose proof (conn_close_no_sqlite f') as Hc.
  destruct (conn_close f') as [[[]| |e'] f'']; cbn in *.
  - intros ->. apply (Hm e). reflexivity.
  - discriminate.
  - intros [= ->]. apply (Hc e). reflexivity.
Qed.

Lemma no_sqlite_try_except body h :
  catches_sqlite h -> no_sqlite (try_except body h).
Proof.
  intros Hh f e. unfold try_except.
  destruct (body f) as [[a| |e'] f']; cbn; try discriminate.
  specialize (Hh e'). destruct e' as [| | | | |err].
  6: destruct Hh as [m ->]; discriminate.
  all: rewrite Hh; discriminate.
Qed.

Lemma catches_sqlite_except_Error msg : catches_sqlite (except_Error msg).
Proof. intros [| | | | |err]; cbn; eauto. Qed.

Lemma catches_sqlite_except_IntegrityError_Error :
  catches_sqlite except_IntegrityError_Error.
Proof. intros [| | | | |[| |]]; cbn; eauto. Qed.

Create HintDb no_sqlite.
#[local] Hint Resolve no_sqlite_pure no_sqlite_return no_sqlite_print
  no_sqlite_getitem no_sqlite_call_cpf_valido no_sqlite_try_finally
  no_sqlite_try_except catches_sqlite_except_Error
  catches_sqlite_except_IntegrityError_Error : no_sqlite.
#[local] Hint Extern 2 (no_sqlite (bind _ _)) =>
  apply no_sqlite_bind; [|intros ?] : no_sqlite.
#[local] Hint Extern 2 (no_sqlite (if ?b then _ else _)) =>
  destruct b : no_sqlite.














(** * Further properties *)

(** ** The effect of each function on the file, whatever fails *)

(** Reads the keys of the record in the order of the program; a missing key
    ends the case by [tac]. *)
Ltac read_keys dados tac :=
  repeat match goal with
  | |- context [dados !! ?k] =>
      let E := fresh "E" in destruct (dados !! k) eqn:E; [|solve [tac]]
  end.

Lemma bind_params_inl vs e :
  bind_params vs = inl e -> e = OverflowError \/ e = UnicodeEncodeError.
Proof.
  induction vs as [|v vs IH]; simpl; [discriminate|].
  destruct v as [|z|s]; simpl.
  - destruct (bind_params vs); [intros [= <-]; auto|discriminate].
  - destruct (in_int64 z); [|intros [= <-]; auto].
    destruct (bind_params vs); [intros [= <-]; auto|discriminate].
  - destruct (utf8_encodable s); [|intros [= <-]; auto].
    destruct (bind_params vs); [intros [= <-]; auto|discriminate].
Qed.

Lemma inserir_titular_effect dados w :
  let w' := fst (run (InsertHolder dados) w) in
  disk w' = disk w \/
  (holder_added dados (disk w) (disk w') /\
   snd (run (InsertHolder dados) w) = None /\
   exists nome, stdout w' = stdout w ++ [TitularInserido nome]).
Proof.
  cbv zeta. unfold run, call, body, inserir_titular, getitem.
  destruct (dados !! "cpf") as [[| |T]|] eqn:Hcpf; try (left; reflexivity).
  py_eval. destruct (cpf_valido T) eqn:V; [|left; reflexivity].
  py_eval. destruct (faults w (calls w)); [left; reflexivity|].
  read_keys dados ltac:(left; reflexivity).
  py_eval. destruct (faults w (S (calls w))); [left; reflexivity|].
  unfold insert_Titulares.
  destruct (tbl_Titulares (disk w)) as [rows|] eqn:Hrows; [|left; reflexivity].
  destruct (bind_params _) as [e|xs] eqn:B;
    [destruct (bind_params_inl _ _ B) as [-> | ->]; left; reflexivity|].
  destruct (row_Titulares xs) as [r|] eqn:Hr; [|left; reflexivity].
  destruct (violated_Titulares r rows) eqn:Hv; [left; reflexivity|].
  py_eval. destruct (faults w (S (S (calls w)))); [left; reflexivity|].
  right. cbn [fst snd world disk stdout]. split; [|split; [reflexivity|eauto]].
  exists rows, r, T. repeat split; try assumption.
  unfold linha_titular, parametros, campos_titular. cbn [valores].
  repeat match goal with E : dados !! _ = Some _ |- _ => rewrite E; clear E end.
  rewrite B. exact Hr.
Qed.

Lemma existsb_filter_nil {A} (p : A -> bool) (l : list A) :
  List.filter p l = [] -> existsb p l = false.
Proof.
  induction l as [|a l IH]; simpl; [reflexivity|].
  destruct (p a); simpl; [discriminate|auto].
Qed.

Lemma existsb_filter_nonempty {A} (p : A -> bool) (l : list A) a l' :
  List.filter p l = a :: l' -> existsb p l = true.
Proof.
  intros H. destruct (existsb p l) eqn:E; [reflexivity|].
  rewrite (filter_existsb_false _ _ E) in H. discriminate.
Qed.

Lemma inserir_dependente_effect dados w :
  let w' := fst (run (InsertDependent dados) w) in
  disk w' = disk w \/
  (dependent_added dados (disk w) (disk w') /\
   snd (run (InsertDependent dados) w) = None /\
   exists nome, stdout w' = stdout w ++ [DependenteInserido nome]).
Proof.
  cbv zeta. unfold run, call, body, inserir_dependente, getitem.
  destruct (dados !! "cpf") as [[| |c]|] eqn:Hc; try (left; reflexivity).
  py_eval. destruct (cpf_valido c) eqn:Vc; [|left; reflexivity].
  destruct (dados !! "cpf_titular") as [[| |h]|] eqn:Hh;
    try (left; reflexivity).
  py_eval. destruct (cpf_valido h) eqn:Vh; [|left; reflexivity].
  py_eval. destruct (faults w (calls w)); [left; reflexivity|].
  py_eval. destruct (faults w (S (calls w))); [left; reflexivity|].
  unfold select_1_Titulares.
  destruct (tbl_Titulares (disk w)) as [holders|] eqn:Hholders;
    [|left; reflexivity].
  cbn [bind_params bind_param]. rewrite (cpf_valido_utf8_encodable _ Vh).
  destruct (List.filter _ holders) as [|t found] eqn:Hfound;
    [left; reflexivity|].
  apply existsb_filter_nonempty in Hfound.
  cbn [map]. py_eval.
  read_keys dados ltac:(left; reflexivity).
  py_eval. destruct (faults w (S (S (calls w)))); [left; reflexivity|].
  unfold insert_Dependentes.
  destruct (tbl_Dependentes (disk w)) as [deps|] eqn:Hdeps;
    [|left; reflexivity].
  destruct (bind_params _) as [e|xs] eqn:B;
    [destruct (bind_params_inl _ _ B) as [-> | ->]; left; reflexivity|].
  destruct (row_Dependentes xs) as [r|] eqn:Hr; [|left; reflexivity].
  destruct (violated_Dependentes r deps) eqn:Hv; [left; reflexivity|].
  cbv zeta. rewrite Hholders.
  assert (linha_dependente dados = Some r) as Hlinha.
  { unfold linha_dependente, parametros, campos_dependente. cbn [valores].
    rewrite Hc, Hh.
    repeat match goal with
    | E : dados !! _ = Some _ |- _ => rewrite E; clear E
    end.
    rewrite B. exact Hr. }
  assert (dependent_added dados (disk w)
            {| tbl_Titulares := Some holders;
               tbl_Dependentes := Some (deps ++ [r]) |}) as Hadded.
  { exists deps, r, c, h. rewrite Hholders. repeat split; try assumption.
    unfold holder_exists. rewrite Hholders. exact Hfound. }
  destruct (SQLITE_DEFAULT_FOREIGN_KEYS w).
  - destruct (references_holder r holders); [|left; reflexivity].
    py_eval. destruct (faults w (S (S (S (calls w))))); [left; reflexivity|].
    right. cbn [fst snd world disk stdout]. eauto.
  - py_eval. destruct (faults w (S (S (S (calls w))))); [left; reflexivity|].
    right. cbn [fst snd world disk stdout]. eauto.
Qed.

Lemma database_eta d :
  {| tbl_Titulares := tbl_Titulares d; tbl_Dependentes := tbl_Dependentes d |}
  = d.
Proof. destruct d; reflexivity. Qed.

Lemma remover_pessoa_effect cpf w :
  let w' := fst (run (RemovePerson cpf) w) in
  disk w' = disk w \/
  (cpf_valido cpf = true /\ snd (run (RemovePerson cpf) w) = None /\
   ((holder_removed cpf (SQLITE_DEFAULT_FOREIGN_KEYS w) (disk w) (disk w') /\
     stdout w' = stdout w ++ [TitularRemovido cpf]) \/
    (dependent_removed cpf (disk w) (disk w') /\
     dependent_exists cpf (disk w) = true /\
     stdout w' = stdout w ++ [DependenteRemovido cpf]))).
Proof.
  cbv zeta. unfold run, call, body, remover_pessoa.
  destruct (cpf_valido cpf) eqn:V; [|left; reflexivity].
  pose proof (cpf_valido_utf8_encodable _ V) as U.
  py_eval. destruct (faults w (calls w)); [left; reflexivity|].
  py_eval. destruct (faults w (S (calls w))); [left; reflexivity|].
  unfold select_1_Titulares.
  destruct (tbl_Titulares (disk w)) as [holders|] eqn:Hholders;
    [|left; reflexivity].
  cbn [bind_params bind_param]. rewrite U.
  destruct (List.filter _ holders) as [|t found] eqn:Hfound; cbn [map].
  - apply existsb_filter_nil in Hfound.
    py_eval. destruct (faults w (S (S (calls w)))); [left; reflexivity|].
    unfold delete_Dependentes.
    destruct (tbl_Dependentes (disk w)) as [deps|] eqn:Hdeps;
      [|left; reflexivity].
    cbn [bind_params bind_param]. rewrite U.
    destruct (existsb (fun x => sql_eq (Dependentes.CPF x) (SqlText cpf)) deps)
      eqn:Hdep.
    + rewrite (filter_negb_existsb_true _ _ Hdep).
      py_eval. destruct (faults w (S (S (S (calls w))))); [left; reflexivity|].
      right. cbn [fst snd world disk stdout]. repeat split; [].
      right. unfold dependent_removed, holder_exists, dependent_exists.
      rewrite Hholders, Hdeps. cbn [rows_of]. auto.
    + rewrite (filter_negb_existsb_false _ _ Hdep), Nat.sub_diag.
      cbn [Nat.ltb Nat.leb].
      py_eval. destruct (faults w (S (S (S (calls w))))); [left; reflexivity|].
      left. cbn [fst world disk]. rewrite <- Hdeps.
      apply database_eta.
  - apply existsb_filter_nonempty in Hfound.
    py_eval. destruct (faults w (S (S (calls w)))); [left; reflexivity|].
    unfold delete_Titulares. rewrite Hholders.
    cbn [bind_params bind_param]. rewrite U. cbv zeta.
    rewrite (filter_negb_existsb_true _ _ Hfound), andb_true_r.
    py_eval. destruct (faults w (S (S (S (calls w))))); [left; reflexivity|].
    right. cbn [fst snd world disk stdout]. repeat split; [].
    left. unfold holder_removed, holder_exists.
    rewrite Hholders. cbn [rows_of]. auto.
Qed.

Lemma criar_tabelas_effect w :
  let d := disk w in
  let d' := disk (fst (run InitializeSchema w)) in
  d' = d \/
  d' = {| tbl_Titulares := Some (rows_of (tbl_Titulares d));
          tbl_Dependentes := tbl_Dependentes d |} \/
  d' = with_tables d.
Proof.
  cbv zeta.
  unfold run, call, body, criar_tabelas, create_Titulares, create_Dependentes.
  py_eval. destruct (faults w (calls w)); [left; reflexivity|].
  py_eval. destruct (faults w (S (calls w))); [left; reflexivity|].
  py_eval. destruct (faults w (S (S (calls w)))).
  - right; left. cbn. destruct (tbl_Titulares (disk w)); reflexivity.
  - py_eval. right; right. unfold with_tables.
    destruct (faults w (S (S (S (calls w)))));
      destruct (tbl_Titulares (disk w)), (tbl_Dependentes (disk w));
      reflexivity.
Qed.

(** ** Successful inserts *)


Lemma linha_dependente_keys dados c h r :
  dados !! "cpf" = Some (PyStr c) ->
  dados !! "cpf_titular" = Some (PyStr h) ->
  linha_dependente dados = Some r ->
  Dependentes.CPF r = SqlText c /\ Dependentes.CPFTitular r = SqlText h.
Proof.
  intros Hc Hh Hr. record Hr. injection Hc as ->. injection Hh as ->.
  repeat match goal with H : bind_param (PyStr _) = inr _ |- _ =>
    apply bind_param_PyStr in H; subst end.
  cbn [row_Dependentes] in Hr. injection Hr as <-. split; reflexivity.
Qed.







(** ** Removing a dependent, and invalid tax IDs *)

(** X3.  A valid tax ID that is no holder's and is a dependent's removes
    the rows of [Dependentes] with that tax ID and no other, leaves
    [Titulares] as it was, prints that the dependent was removed and raises
    nothing, when the four calls into the library meet no failure. *)
Theorem remover_pessoa_dependent (cpf : str) (w : World) :
  cpf_valido cpf = true ->
  no_fault 4 w ->
  is_Some (tbl_Titulares (disk w)) ->
  holder_exists cpf (disk w) = false ->
  dependent_exists cpf (disk w) = true ->
  let w' := fst (run (RemovePerson cpf) w) in
  snd (run (RemovePerson cpf) w) = None /\
  stdout w' = stdout w ++ [DependenteRemovido cpf] /\
  tbl_Titulares (disk w') = tbl_Titulares (disk w) /\
  tbl_Dependentes (disk w') =
    Some (without_dependent cpf (rows_of (tbl_Dependentes (disk w)))) /\
  dependent_exists cpf (disk w') = false.
Proof.
  intros V F [holders Hholders] Hno Hdep. cbv zeta.
  pose proof (no_fault_0 _ _ F) as F0. pose proof (no_fault_1 _ _ F) as F1.
  pose proof (no_fault_2 _ _ F) as F2. pose proof (no_fault_3 _ _ F) as F3.
  pose proof (cpf_valido_utf8_encodable _ V) as U.
  unfold holder_exists in Hno. unfold dependent_exists in *.
  rewrite Hholders in Hno. cbn [rows_of] in Hno.
  destruct (tbl_Dependentes (disk w)) as [deps|] eqn:Hdeps; [|discriminate].
  cbn [rows_of] in *.
  unfold run, call, body, remover_pessoa. rewrite V.
  py_eval. rewrite F0. py_eval. rewrite F1.
  unfold select_1_Titulares. rewrite Hholders.
  cbn [bind_params bind_param]. rewrite U.
  rewrite (filter_existsb_false _ _ Hno). cbn [map]. py_eval. rewrite F2.
  unfold delete_Dependentes. rewrite Hdeps. cbn [bind_params bind_param].
  rewrite U. rewrite (filter_negb_existsb_true _ _ Hdep).
  py_eval. rewrite F3.
  cbn [fst snd world disk stdout tbl_Titulares tbl_Dependentes rows_of].
  repeat split; try assumption. apply existsb_filter_negb.
Qed.

Lemma remover_pessoa_dependent_witness :
  disk (fst (run (RemovePerson (lit "21223344556")) (healthy main_file))) =
  holder_file.
Proof.
  destruct (remover_pessoa_dependent (lit "21223344556") (healthy main_file))
    as (_ & _ & Ht & Hd & _).
  - reflexivity.
  - apply no_fault_healthy.
  - eexists. reflexivity.
  - reflexivity.
  - reflexivity.
  - destruct (disk (fst (run (RemovePerson (lit "21223344556"))
                             (healthy main_file)))) as [t d].
    cbn [tbl_Titulares tbl_Dependentes] in Ht, Hd. rewrite Ht, Hd.
    reflexivity.
Defined.



(** ** All or nothing *)



Lemma rows_of_option_map_filter {A} (p : A -> bool) (t : option (list A)) :
  rows_of (option_map (List.filter p) t) = List.filter p (rows_of t).
Proof. destruct t; reflexivity. Qed.

(** The two tables after [remover_pessoa], whatever fails: each is a
    filter of what it was. *)
Lemma remover_pessoa_filters cpf w :
  let d := disk w in
  let d' := disk (fst (run (RemovePerson cpf) w)) in
  (rows_of (tbl_Titulares d') = rows_of (tbl_Titulares d) \/
   rows_of (tbl_Titulares d') = without_holder cpf (rows_of (tbl_Titulares d)))
  /\
  (rows_of (tbl_Dependentes d') = rows_of (tbl_Dependentes d) \/
   rows_of (tbl_Dependentes d') = cascade cpf (rows_of (tbl_Dependentes d)) \/
   rows_of (tbl_Dependentes d') =
     without_dependent cpf (rows_of (tbl_Dependentes d))).
Proof.
  cbv zeta.
  destruct (remover_pessoa_effect cpf w)
    as [-> | (_ & _ & [[[_ ->] _] | [[_ ->] _]])];
    cbn [tbl_Titulares tbl_Dependentes rows_of]; auto.
  destruct (SQLITE_DEFAULT_FOREIGN_KEYS w); auto.
  unfold cascade. rewrite rows_of_option_map_filter. auto.
Qed.

(** X7.  Whatever fails, [remover_pessoa] adds no row to either table, and
    it keeps every holder with another tax ID and every dependent that
    neither has the tax ID nor references it. *)
Theorem remover_pessoa_only_removes (cpf : str) (w : World) :
  let d := disk w in
  let d' := disk (fst (run (RemovePerson cpf) w)) in
  (forall t, In t (rows_of (tbl_Titulares d')) ->
             In t (rows_of (tbl_Titulares d))) /\
  (forall x, In x (rows_of (tbl_Dependentes d')) ->
             In x (rows_of (tbl_Dependentes d))) /\
  (forall t, In t (rows_of (tbl_Titulares d)) ->
             sql_eq (Titulares.CPF t) (SqlText cpf) = false ->
             In t (rows_of (tbl_Titulares d'))) /\
  (forall x, In x (rows_of (tbl_Dependentes d)) ->
             sql_eq (Dependentes.CPF x) (SqlText cpf) = false ->
             sql_eq (Dependentes.CPFTitular x) (SqlText cpf) = false ->
             In x (rows_of (tbl_Dependentes d'))).
Proof.
  cbv zeta. destruct (remover_pessoa_filters cpf w) as [Ht Hd].
  unfold without_holder, cascade, without_dependent in *.
  repeat split.
  - intros t. destruct Ht as [-> | ->]; [auto|].
    intros H. apply filter_In in H. tauto.
  - intros x. destruct Hd as [-> | [-> | ->]]; [auto| |];
      intros H; apply filter_In in H; tauto.
  - intros t Hin Hne. destruct Ht as [-> | ->]; [assumption|].
    apply filter_In. rewrite Hne. auto.
  - intros x Hin Hne Href. destruct Hd as [-> | [-> | ->]]; [assumption| |];
      apply filter_In; rewrite ?Hne, ?Href; auto.
Qed.

(** ** Keys stay valid and unique *)

Lemma NoDup_snoc {B} (l : list B) (x : B) :
  NoDup l -> ~ In x l -> NoDup (l ++ [x]).
Proof.
  induction l as [|a l IH]; intros Hl Hx; simpl.
  - constructor; [rewrite list_elem_of_In; auto|constructor].
  - inversion Hl as [|? ? Ha Hl']; subst. constructor.
    + rewrite list_elem_of_In in *. rewrite in_app_iff. simpl in *.
      intros [H | [H | []]]; [auto|]. subst. auto.
    + apply IH; [assumption|]. simpl in Hx. tauto.
Qed.

Lemma NoDup_map_filter {A B} (f : A -> B) (p : A -> bool) (l : list A) :
  NoDup (map f l) -> NoDup (map f (List.filter p l)).
Proof.
  induction l as [|a l IH]; simpl; [auto|].
  intros H. inversion H as [|? ? Ha Hl]; subst.
  destruct (p a); simpl; [|auto]. constructor; [|auto].
  rewrite list_elem_of_In in *. rewrite in_map_iff in *.
  intros (b & Hb & Hin). apply Ha. exists b. split; [assumption|].
  apply filter_In in Hin. tauto.
Qed.

Lemma Forall_filter_keep {A} (P : A -> Prop) (p : A -> bool) (l : list A) :
  Forall P l -> Forall P (List.filter p l).
Proof.
  rewrite !List.Forall_forall. intros H a Ha.
  apply filter_In in Ha. apply H. tauto.
Qed.

Section Keyed.
Context {A : Type} (cpf credencial : A -> SqlValue).

Lemma keyed_filter (p : A -> bool) rows :
  keyed cpf credencial rows -> keyed cpf credencial (List.filter p rows).
Proof.
  intros (H1 & H2 & H3 & H4).
  repeat split; auto using Forall_filter_keep, NoDup_map_filter.
Qed.

Lemma not_in_keys (key : A -> SqlValue) rows v :
  is_text v = true ->
  existsb (fun a => sql_eq (key a) v) rows = false ->
  ~ In v (map key rows).
Proof.
  intros Hv Hnone Hin. apply in_map_iff in Hin as (a & Ha & Hin).
  assert (existsb (fun a => sql_eq (key a) v) rows = true) as Hsome.
  { apply existsb_exists. exists a. split; [assumption|].
    rewrite Ha. destruct v; try discriminate. apply sql_eq_SqlText_refl. }
  congruence.
Qed.

Lemma keyed_snoc rows r :
  keyed cpf credencial rows ->
  valid_cpf (cpf r) = true ->
  is_text (credencial r) = true ->
  existsb (fun a => sql_eq (cpf a) (cpf r)) rows = false ->
  existsb (fun a => sql_eq (credencial a) (credencial r)) rows = false ->
  keyed cpf credencial (rows ++ [r]).
Proof.
  intros (H1 & H2 & H3 & H4) Hv Ht Hc Hd.
  assert (is_text (cpf r) = true) as Htc
    by (destruct (cpf r); try discriminate; reflexivity).
  repeat split.
  - apply Forall_app. split; [assumption|]. constructor; auto.
  - rewrite map_app. apply NoDup_snoc; [assumption|].
    apply not_in_keys; assumption.
  - apply Forall_app. split; [assumption|]. constructor; auto.
  - rewrite map_app. apply NoDup_snoc; [assumption|].
    apply not_in_keys; assumption.
Qed.
End Keyed.

Lemma text_affinity_text v :
  is_null (text_affinity v) = false -> is_text (text_affinity v) = true.
Proof. destruct v; simpl; auto. Qed.

Lemma violated_Titulares_None r rows :
  violated_Titulares r rows = None ->
  is_null (Titulares.Credencial r) = false /\
  existsb (fun t => sql_eq (Titulares.CPF t) (Titulares.CPF r)) rows = false /\
  existsb (fun t => sql_eq (Titulares.Credencial t) (Titulares.Credencial r))
          rows = false.
Proof.
  unfold violated_Titulares.
  repeat match goal with
  | |- context [if ?b then _ else _] => destruct b eqn:?; try discriminate
  end.
  auto.
Qed.

Lemma violated_Dependentes_None r rows :
  violated_Dependentes r rows = None ->
  is_null (Dependentes.Credencial r) = false /\
  existsb (fun x => sql_eq (Dependentes.CPF x) (Dependentes.CPF r)) rows
    = false /\
  existsb (fun x => sql_eq (Dependentes.Credencial x)
                           (Dependentes.Credencial r)) rows = false.
Proof.
  unfold violated_Dependentes.
  repeat match goal with
  | |- context [if ?b then _ else _] => destruct b eqn:?; try discriminate
  end.
  auto.
Qed.

Lemma linha_titular_Credencial dados r :
  linha_titular dados = Some r ->
  is_null (Titulares.Credencial r) = false ->
  is_text (Titulares.Credencial r) = true.
Proof.
  intros Hr. record Hr. cbn [row_Titulares] in Hr. injection Hr as <-.
  apply text_affinity_text.
Qed.

Lemma linha_dependente_Credencial dados r :
  linha_dependente dados = Some r ->
  is_null (Dependentes.Credencial r) = false ->
  is_text (Dependentes.Credencial r) = true.
Proof.
  intros Hr. record Hr. cbn [row_Dependentes] in Hr. injection Hr as <-.
  apply text_affinity_text.
Qed.

Lemma run_keeps_keys op w :
  keys_ok (disk w) -> keys_ok (disk (fst (run op w))).
Proof.
  intros (HT & HD & HR). destruct op as [|dados|dados|cpf|].
  - destruct (criar_tabelas_effect w) as [-> | [-> | ->]];
      (split; [|split]; assumption).
  - destruct (inserir_titular_effect dados w)
      as [-> | ((rows & r & T & Hrows & Hr & Hcpf & V & Hv & ->) & _)];
      [split; [|split]; assumption|].
    rewrite Hrows in HT. cbn [rows_of] in HT.
    apply violated_Titulares_None in Hv as (Hnn & Hc & Hd).
    split; [|split; assumption]. cbn [tbl_Titulares rows_of].
    apply keyed_snoc; try assumption.
    + rewrite (linha_titular_CPF _ _ _ Hcpf Hr). exact V.
    + eapply linha_titular_Credencial; eassumption.
  - destruct (inserir_dependente_effect dados w)
      as [-> | ((deps & r & c & h & Hdeps & Hr & Hc & Vc & Hh & Vh & _ & Hv
                 & ->) & _)];
      [split; [|split]; assumption|].
    rewrite Hdeps in HD, HR. cbn [rows_of] in HD, HR.
    destruct (linha_dependente_keys _ _ _ _ Hc Hh Hr) as [HC HF].
    apply violated_Dependentes_None in Hv as (Hnn & Hk & Hd).
    split; [assumption|]. cbn [tbl_Dependentes rows_of]. split.
    + apply keyed_snoc; try assumption.
      * rewrite HC. exact Vc.
      * eapply linha_dependente_Credencial; eassumption.
    + apply Forall_app. split; [assumption|]. constructor; [|constructor].
      rewrite HF. exact Vh.
  - destruct (remover_pessoa_filters cpf w) as [Ht Hd].
    unfold keys_ok, without_holder, cascade, without_dependent in *.
    split; [|split].
    + destruct Ht as [-> | ->]; auto using keyed_filter.
    + destruct Hd as [-> | [-> | ->]]; auto using keyed_filter.
    + destruct Hd as [-> | [-> | ->]];
        [assumption | apply Forall_filter_keep; assumption
        | apply Forall_filter_keep; assumption].
  - rewrite listar_pessoas_disk. split; [|split]; assumption.
Qed.

Lemma keys_ok_empty_file : keys_ok empty_file.
Proof. repeat split; constructor. Qed.

(** X8.  Every function keeps the keys of the file valid and unique,
    whatever the records and whatever fails: starting from a file in which
    every tax ID matches the pattern, no two rows of a table share a tax ID
    or a credential, and credentials are text, any sequence of calls leaves
    such a file.  A new file is one. *)
Theorem run_all_keeps_keys (ops : list Operation) (w : World) :
  keys_ok empty_file /\
  (keys_ok (disk w) -> keys_ok (disk (fst (run_all ops w)))).
Proof.
  split; [apply keys_ok_empty_file|].
  revert w; induction ops as [|op ops IH]; intros w Hw; simpl; [assumption|].
  pose proof (run_keeps_keys op w Hw) as H1.
  destruct (run op w) as [w1 e]. cbn [fst] in H1.
  specialize (IH w1 H1). destruct (run_all ops w1) as [w2 es]. exact IH.
Qed.

Lemma run_all_keeps_keys_witness :
  keys_ok (disk (fst (run_all main_block (healthy empty_file)))) /\
  keys_ok main_file.
Proof.
  destruct (run_all_keeps_keys main_block (healthy empty_file))
    as [Hempty Hmain].
  destruct (run_all_keeps_keys
              [InitializeSchema; InsertHolder dados_titular;
               InsertDependent dados_dependente] (healthy empty_file))
    as [_ Hfile].
  split; [apply Hmain; exact Hempty | apply Hfile; exact Hempty].
Defined.

(** ** Referential integrity *)

Lemma sql_eq_SqlText_r a s : sql_eq a (SqlText s) = true -> a = SqlText s.
Proof.
  destruct a as [|z|s']; simpl; try discriminate.
  intros H. apply bool_decide_eq_true in H. congruence.
Qed.

Lemma sql_eq_SqlText_l s b : sql_eq (SqlText s) b = true -> b = SqlText s.
Proof.
  destruct b as [|z|s']; simpl; try discriminate.
  intros H. apply bool_decide_eq_true in H. congruence.
Qed.

Lemma references_holder_app x holders more :
  references_holder x holders = true ->
  references_holder x (holders ++ more) = true.
Proof.
  unfold references_holder. rewrite existsb_app. intros ->. reflexivity.
Qed.

(** A dependent that does not reference [cpf] keeps its holder when the
    holders of tax ID [cpf] are removed. *)
Lemma references_holder_without cpf x holders :
  sql_eq (Dependentes.CPFTitular x) (SqlText cpf) = false ->
  references_holder x holders = true ->
  references_holder x (without_holder cpf holders) = true.
Proof.
  unfold references_holder, without_holder. intros Hne H.
  apply existsb_exists in H as (t & Hin & Heq).
  apply existsb_exists. exists t. split; [|assumption].
  apply filter_In. split; [assumption|].
  destruct (sql_eq (Titulares.CPF t) (SqlText cpf)) eqn:Ht; [|reflexivity].
  apply sql_eq_SqlText_r in Ht. rewrite Ht in Heq.
  apply sql_eq_SqlText_l in Heq. rewrite Heq in Hne.
  rewrite sql_eq_SqlText_refl in Hne. discriminate.
Qed.

Lemma filter_nil_forall {A} (p : A -> bool) (l : list A) :
  List.filter p l = [] -> forall a, In a l -> p a = false.
Proof.
  intros H a Ha. destruct (p a) eqn:E; [|reflexivity].
  assert (In a (List.filter p l)) as Hin by (apply filter_In; auto).
  rewrite H in Hin. destruct Hin.
Qed.

(** X9.  Every function keeps referential integrity (each dependent
    references a holder that is in [Titulares]), whatever the records and
    whatever fails, with one exception: [remover_pessoa] on a holder that
    has dependents, on a connection that does not enforce foreign keys.  In
    particular [inserir_dependente] never stores a dependent without its
    holder. *)
Theorem run_keeps_referential_integrity (op : Operation) (w : World) :
  references_ok (disk w) ->
  keeps_references op w = true ->
  references_ok (disk (fst (run op w))).
Proof.
  unfold references_ok. intros Hok Hkeeps.
  destruct op as [|dados|dados|cpf|].
  - destruct (criar_tabelas_effect w) as [-> | [-> | ->]]; exact Hok.
  - destruct (inserir_titular_effect dados w)
      as [-> | ((rows & r & T & Hrows & _ & _ & _ & _ & ->) & _)];
      [exact Hok|].
    rewrite Hrows in Hok. cbn [tbl_Titulares tbl_Dependentes rows_of] in *.
    eapply Forall_impl; [exact Hok|]. intros x Hx.
    apply references_holder_app. exact Hx.
  - destruct (inserir_dependente_effect dados w)
      as [-> | ((deps & r & c & h & Hdeps & Hr & Hc & _ & Hh & _ & Hex & _
                 & ->) & _)];
      [exact Hok|].
    rewrite Hdeps in Hok. cbn [tbl_Titulares tbl_Dependentes rows_of] in *.
    apply Forall_app. split; [exact Hok|]. constructor; [|constructor].
    destruct (linha_dependente_keys _ _ _ _ Hc Hh Hr) as [_ Href].
    unfold references_holder. rewrite Href. exact Hex.
  - destruct (remover_pessoa_effect cpf w)
      as [-> | (_ & _ & [[[Hex ->] _] | [[_ ->] _]])]; [exact Hok| |].
    + cbn [keeps_references] in Hkeeps. rewrite Hex in Hkeeps.
      cbn [negb orb] in Hkeeps. rewrite orb_false_r in Hkeeps.
      cbn [tbl_Titulares tbl_Dependentes rows_of].
      assert (forall x, In x (rows_of (tbl_Dependentes (disk w))) ->
                SQLITE_DEFAULT_FOREIGN_KEYS w = false ->
                sql_eq (Dependentes.CPFTitular x) (SqlText cpf) = false)
        as Hnone.
      { intros x Hx Hfk. rewrite Hfk in Hkeeps. cbn [orb] in Hkeeps.
        unfold dependents_of in Hkeeps.
        destruct (List.filter _ _) eqn:Hf in Hkeeps; [|discriminate].
        apply (filter_nil_forall _ _ Hf x Hx). }
      rewrite List.Forall_forall in *.
      destruct (SQLITE_DEFAULT_FOREIGN_KEYS w) eqn:Hfk.
      * unfold cascade. rewrite rows_of_option_map_filter.
        intros x Hx. apply filter_In in Hx as [Hx Hne].
        apply negb_true_iff in Hne.
        apply references_holder_without; auto.
      * intros x Hx. apply references_holder_without; auto.
    + cbn [tbl_Titulares tbl_Dependentes rows_of].
      apply Forall_filter_keep. exact Hok.
  - rewrite listar_pessoas_disk. exact Hok.
Qed.

Lemma run_keeps_referential_integrity_witness :
  references_ok
    (disk (fst (run (InsertDependent dados_dependente)
                    (healthy holder_file)))) /\
  references_ok
    (disk (fst (run (RemovePerson (lit "12930888466"))
                    (enforcing main_file)))).
Proof.
  split.
  - apply (run_keeps_referential_integrity
             (InsertDependent dados_dependente) (healthy holder_file)).
    + constructor.
    + reflexivity.
  - apply (run_keeps_referential_integrity
             (RemovePerson (lit "12930888466")) (enforcing main_file)).
    + repeat constructor.
    + reflexivity.
Defined.

(** ** Insert, then remove or list *)

Lemma no_fault_after n m w w' :
  no_fault (n + m) w -> faults w' = faults w -> calls w' = (n + calls w)%nat ->
  no_fault m w'.
Proof.
  intros F Hf Hc i Hi. rewrite Hf, Hc.
  replace (n + calls w + i)%nat with (calls w + (n + i))%nat by lia.
  apply F. lia.
Qed.







(** ** When the library fails *)

Lemma valid_str_inv o :
  valid_str o = true -> exists s, o = Some (PyStr s) /\ cpf_valido s = true.
Proof. destruct o as [[| |s]|]; try discriminate. eauto. Qed.

(** X12.  When [sqlite3.connect] fails, every function that reaches its
    [try] block prints its error line for the failure and then raises
    [UnboundLocalError]: [conn.close()] in the [finally] clause reads a
    variable that was never assigned.  The file is left as it was. *)
Theorem connect_failure_raises (op : Operation) (w : World) :
  faults w (calls w) = true ->
  reaches_store op = true ->
  let w' := fst (run op w) in
  snd (run op w) = Some (UnboundLocalError "conn") /\
  (exists m, stdout w' = stdout w ++ [m] /\
             error_of m = Some (OperationalError StorageFailure)) /\
  disk w' = disk w.
Proof.
  intros F0 Hreach. cbv zeta.
  destruct op as [|dados|dados|cpf|]; cbn [reaches_store] in Hreach.
  - unfold run, call, body, criar_tabelas. py_eval. rewrite F0.
    cbn. eauto.
  - apply valid_str_inv in Hreach as (s & Hs & V).
    unfold run, call, body, inserir_titular, getitem. rewrite Hs.
    py_eval. rewrite V. py_eval. rewrite F0. cbn. eauto.
  - apply andb_true_iff in Hreach as [Hc Hh].
    apply valid_str_inv in Hc as (c & Hc & Vc).
    apply valid_str_inv in Hh as (h & Hh & Vh).
    unfold run, call, body, inserir_dependente, getitem. rewrite Hc, Hh.
    py_eval. rewrite Vc, Vh. py_eval. rewrite F0. cbn. eauto.
  - unfold run, call, body, remover_pessoa. rewrite Hreach.
    py_eval. rewrite F0. cbn. eauto.
  - unfold run, call, body, listar_pessoas. py_eval. rewrite F0.
    cbn. eauto.
Qed.

Lemma connect_failure_raises_witness :
  snd (run (RemovePerson (lit "12930888466")) (failing_at 0 main_file)) =
    Some (UnboundLocalError "conn") /\
  stdout (fst (run ListAll (failing_at 0 main_file))) =
    [ErroListar (OperationalError StorageFailure)].
Proof.
  destruct (connect_failure_raises (RemovePerson (lit "12930888466"))
              (failing_at 0 main_file)) as (Hraised & _).
  - reflexivity.
  - reflexivity.
  - split; [exact Hraised | reflexivity].
Defined.

(** X13.  On a file that has no table [Titulares] (before [criar_tabelas]),
    every other function that reaches its [try] block with a well-formed
    record reports that there is no such table, by its error line, raises
    nothing and leaves the file as it was; [listar_pessoas] has printed its
    first header before. *)
Theorem no_table_is_reported (op : Operation) (w : World) :
  tbl_Titulares (disk w) = None ->
  no_fault 2 w ->
  reaches_store op = true -> well_formed op = true ->
  op <> InitializeSchema ->
  let w' := fst (run op w) in
  snd (run op w) = None /\
  (exists m, last (stdout w') = Some m /\
             error_of m = Some (OperationalError (NoSuchTable "Titulares")))
  /\
  disk w' = disk w.
Proof.
  intros Hnone F Hreach Hwf Hop. cbv zeta.
  pose proof (no_fault_0 _ _ F) as F0. pose proof (no_fault_1 _ _ F) as F1.
  destruct op as [|dados|dados|cpf|];
    cbn [reaches_store well_formed] in Hreach, Hwf.
  - congruence.
  - apply valid_str_inv in Hreach as (s & Hs & V).
    apply andb_true_iff in Hwf as [Hp _].
    apply bool_decide_eq_true in Hp as [xs Hp].
    unfold run, call, body, inserir_titular, getitem.
    record Hp. clear Hp. injection Hs as ->.
    py_eval. rewrite V. py_eval. rewrite F0. py_eval. rewrite F1.
    unfold insert_Titulares. rewrite Hnone. cbn.
    split; [reflexivity|]. split; [|reflexivity].
    eexists. split; [apply last_snoc|reflexivity].
  - apply andb_true_iff in Hreach as [Hc Hh].
    apply valid_str_inv in Hc as (c & Hc & Vc).
    apply valid_str_inv in Hh as (h & Hh & Vh).
    unfold run, call, body, inserir_dependente, getitem. rewrite Hc, Hh.
    py_eval. rewrite Vc, Vh. py_eval. rewrite F0. py_eval. rewrite F1.
    unfold select_1_Titulares. rewrite Hnone. cbn.
    split; [reflexivity|]. split; [|reflexivity].
    eexists. split; [apply last_snoc|reflexivity].
  - unfold run, call, body, remover_pessoa. rewrite Hreach.
    py_eval. rewrite F0. py_eval. rewrite F1.
    unfold select_1_Titulares. rewrite Hnone. cbn.
    split; [reflexivity|]. split; [|reflexivity].
    eexists. split; [apply last_snoc|reflexivity].
  - unfold run, call, body, listar_pessoas, select_Titulares.
    py_eval. rewrite F0. py_eval. rewrite F1, Hnone. cbn.
    split; [reflexivity|]. split; [|reflexivity].
    eexists. split; [apply last_snoc|reflexivity].
Qed.

Lemma no_table_is_reported_witness :
  stdout (fst (run (InsertHolder dados_titular) (healthy empty_file))) =
    [ErroBancoDados (OperationalError (NoSuchTable "Titulares"))] /\
  stdout (fst (run ListAll (healthy empty_file))) =
    [CabecalhoTitulares;
     ErroListar (OperationalError (NoSuchTable "Titulares"))] /\
  disk (fst (run (InsertHolder dados_titular) (healthy empty_file))) =
    empty_file.
Proof.
  destruct (no_table_is_reported (InsertHolder dados_titular)
              (healthy empty_file)) as (_ & _ & Hdisk).
  - reflexivity.
  - apply no_fault_healthy.
  - reflexivity.
  - reflexivity.
  - discriminate.
  - split; [reflexivity|]. split; [reflexivity | exact Hdisk].
Defined.

(** X14.  A holder record with a valid tax ID that lacks a key makes
    [inserir_titular] raise [KeyError] for the first key it lacks, in the
    order of the INSERT: the connection has been opened (and is closed),
    no statement is run, nothing is printed and the file is left as it
    was. *)
Theorem inserir_titular_missing_key
    (dados : dict) (w : World) (T : str) (k : string) :
  dados !! "cpf" = Some (PyStr T) -> cpf_valido T = true ->
  faults w (calls w) = false ->
  first_missing dados campos_titular = Some k ->
  run (InsertHolder dados) w = (tick w, Some (KeyError k)).
Proof.
  intros Hcpf V F0 Hk.
  unfold run, call, body, inserir_titular, getitem.
  unfold campos_titular in Hk. cbn [first_missing] in Hk.
  rewrite Hcpf in *. py_eval. rewrite V. py_eval. rewrite F0.
  repeat match type of Hk with
  | context [dados !! ?key] =>
      destruct (dados !! key);
        [|injection Hk as <-; reflexivity]
  end.
  discriminate.
Qed.

Lemma inserir_titular_missing_key_witness :
  run (InsertHolder dados_sem_cep) (healthy created_file) =
    (tick (healthy created_file), Some (KeyError "cep")).
Proof.
  apply (inserir_titular_missing_key dados_sem_cep (healthy created_file)
           (lit "12930888466") "cep").
  - reflexivity.
  - reflexivity.
  - reflexivity.
  - reflexivity.
Defined.

(** X15.  A holder record with a valid tax ID and every key, one of whose
    values SQLite cannot bind (an integer outside 64 bits, a string with a
    surrogate), makes [inserir_titular] raise [OverflowError] or
    [UnicodeEncodeError] once the INSERT is prepared: nothing is printed
    and nothing is inserted. *)
Theorem inserir_titular_unbindable
    (dados : dict) (w : World) (T : str) (rows : list Titulares.row)
    (vs : list PyValue) (e : Exception) :
  dados !! "cpf" = Some (PyStr T) -> cpf_valido T = true ->
  no_fault 2 w ->
  tbl_Titulares (disk w) = Some rows ->
  valores dados campos_titular = Some vs ->
  bind_params vs = inl e ->
  run (InsertHolder dados) w = (tick (tick w), Some e) /\
  (e = OverflowError \/ e = UnicodeEncodeError).
Proof.
  intros Hcpf V F Hrows Hvs Hb.
  pose proof (no_fault_0 _ _ F) as F0. pose proof (no_fault_1 _ _ F) as F1.
  split; [|exact (bind_params_inl _ _ Hb)].
  unfold campos_titular in Hvs. lookups Hvs. injection Hvs as <-.
  unfold run, call, body, inserir_titular, getitem.
  repeat match goal with
  | E : dados !! _ = Some _ |- _ => rewrite E in *; clear E
  end.
  injection Hcpf as ->.
  py_eval. rewrite V. py_eval. rewrite F0. py_eval. rewrite F1.
  unfold insert_Titulares. rewrite Hrows, Hb.
  destruct (bind_params_inl _ _ Hb) as [-> | ->]; reflexivity.
Qed.

Lemma inserir_titular_unbindable_witness :
  run (InsertHolder dados_idade_enorme) (healthy created_file) =
    (tick (tick (healthy created_file)), Some OverflowError).
Proof.
  destruct (inserir_titular_unbindable dados_idade_enorme
              (healthy created_file) (lit "12930888466") []
              (match valores dados_idade_enorme campos_titular with
               | Some vs => vs
               | None => []
               end) OverflowError) as [Hrun _].
  - reflexivity.
  - reflexivity.
  - apply no_fault_healthy.
  - reflexivity.
  - reflexivity.
  - reflexivity.
  - exact Hrun.
Defined.

(** X16.  When the INSERT of [inserir_titular] succeeds and the commit
    fails, the failure is reported as a database error, the success line
    is not printed, and closing the connection rolls the INSERT back: the
    file is left as it was. *)
Theorem inserir_titular_commit_failure
    (dados : dict) (w : World) (rows : list Titulares.row) (T : str)
    (r : Titulares.row) :
  dados !! "cpf" = Some (PyStr T) -> cpf_valido T = true ->
  linha_titular dados = Some r ->
  no_fault 2 w ->
  faults w (S (S (calls w))) = true ->
  tbl_Titulares (disk w) = Some rows ->
  violated_Titulares r rows = None ->
  let w' := fst (run (InsertHolder dados) w) in
  snd (run (InsertHolder dados) w) = None /\
  stdout w' =
    stdout w ++ [ErroBancoDados (OperationalError StorageFailure)] /\
  disk w' = disk w.
Proof.
  intros Hcpf V Hr F F2 Hrows Hok. cbv zeta.
  pose proof (no_fault_0 _ _ F) as F0. pose proof (no_fault_1 _ _ F) as F1.
  record Hr. injection Hcpf as ->.
  unfold run, call, body, inserir_titular, getitem.
  repeat match goal with
  | E : dados !! _ = Some _ |- _ => rewrite E; clear E
  end.
  py_eval. rewrite V. py_eval. rewrite F0. py_eval. rewrite F1.
  unfold insert_Titulares. rewrite Hrows.
  match goal with B : bind_params _ = inr _ |- _ => rewrite B end.
  rewrite Hr, Hok. py_eval. rewrite F2. cbn. auto.
Qed.

Lemma inserir_titular_commit_failure_witness :
  stdout (fst (run (InsertHolder dados_titular)
                   (failing_at 2 created_file))) =
    [ErroBancoDados (OperationalError StorageFailure)] /\
  disk (fst (run (InsertHolder dados_titular)
                 (failing_at 2 created_file))) = created_file.
Proof.
  destruct (inserir_titular_commit_failure dados_titular
              (failing_at 2 created_file) [] (lit "12930888466") julius)
    as (_ & Hout & Hdisk).
  - reflexivity.
  - reflexivity.
  - reflexivity.
  - intros [|[|i]] Hi; [reflexivity|reflexivity|lia].
  - reflexivity.
  - reflexivity.
  - reflexivity.
  - split; [exact Hout | exact Hdisk].
Defined.

(** X17.  [remover_pessoa] prints that the holder and its dependents were
    removed before it commits: when the commit fails, that line is
    followed by the error line, and the file is left as it was, the holder
    still in [Titulares]. *)
Theorem remover_pessoa_commit_failure (cpf : str) (w : World) :
  cpf_valido cpf = true ->
  no_fault 3 w ->
  faults w (S (S (S (calls w)))) = true ->
  holder_exists cpf (disk w) = true ->
  let w' := fst (run (RemovePerson cpf) w) in
  snd (run (RemovePerson cpf) w) = None /\
  stdout w' =
    stdout w ++ [TitularRemovido cpf;
                 ErroRemover (OperationalError StorageFailure)] /\
  disk w' = disk w.
Proof.
  intros V F F3 Hex. cbv zeta.
  pose proof (no_fault_0 _ _ F) as F0. pose proof (no_fault_1 _ _ F) as F1.
  pose proof (no_fault_2 _ _ F) as F2.
  pose proof (cpf_valido_utf8_encodable _ V) as U.
  unfold run, call, body, remover_pessoa. rewrite V.
  py_eval. rewrite F0. py_eval. rewrite F1.
  unfold select_1_Titulares, holder_exists in *.
  cbn [bind_params bind_param]. rewrite U.
  destruct (tbl_Titulares (disk w)) as [rows|] eqn:Hrows; [|discriminate].
  cbn [rows_of] in *.
  destruct (existsb_filter_cons _ _ Hex) as (a & l' & ->).
  cbn [map]. py_eval. rewrite F2.
  unfold delete_Titulares. rewrite Hrows. cbn [bind_params bind_param].
  rewrite U. cbv zeta. py_eval. rewrite F3. cbn.
  rewrite <- app_assoc. auto.
Qed.

Lemma remover_pessoa_commit_failure_witness :
  stdout (fst (run (RemovePerson (lit "12930888466"))
                   (failing_at 3 main_file))) =
    [TitularRemovido (lit "12930888466");
     ErroRemover (OperationalError StorageFailure)] /\
  disk (fst (run (RemovePerson (lit "12930888466"))
                 (failing_at 3 main_file))) = main_file.
Proof.
  destruct (remover_pessoa_commit_failure (lit "12930888466")
              (failing_at 3 main_file)) as (_ & Hout & Hdisk).
  - reflexivity.
  - intros [|[|[|i]]] Hi; [reflexivity|reflexivity|reflexivity|lia].
  - reflexivity.
  - reflexivity.
  - split; [exact Hout | exact Hdisk].
Defined.

(** ** One line per dependent *)








(** ** More on listing and removing *)



(** [remover_pessoa] on a tax ID that is in neither table, when no call
    fails. *)
Lemma remover_pessoa_neither cpf w :
  cpf_valido cpf = true ->
  no_fault 4 w ->
  is_Some (tbl_Titulares (disk w)) -> is_Some (tbl_Dependentes (disk w)) ->
  holder_exists cpf (disk w) = false ->
  dependent_exists cpf (disk w) = false ->
  let w' := fst (run (RemovePerson cpf) w) in
  snd (run (RemovePerson cpf) w) = None /\
  stdout w' = stdout w ++ [NenhumaPessoa cpf] /\
  disk w' = disk w.
Proof.
  intros V F [rows Hrows] [deps Hdeps] Hno Hnod. cbv zeta.
  pose proof (no_fault_0 _ _ F) as F0. pose proof (no_fault_1 _ _ F) as F1.
  pose proof (no_fault_2 _ _ F) as F2. pose proof (no_fault_3 _ _ F) as F3.
  pose proof (cpf_valido_utf8_encodable _ V) as U.
  unfold holder_exists in Hno. unfold dependent_exists in Hnod.
  rewrite Hrows in Hno. rewrite Hdeps in Hnod. cbn [rows_of] in *.
  unfold run, call, body, remover_pessoa. rewrite V.
  py_eval. rewrite F0. py_eval. rewrite F1.
  unfold select_1_Titulares. rewrite Hrows.
  cbn [bind_params bind_param]. rewrite U.
  rewrite (filter_existsb_false _ _ Hno). cbn [map]. py_eval. rewrite F2.
  unfold delete_Dependentes. rewrite Hdeps. cbn [bind_params bind_param].
  rewrite U. rewrite (filter_negb_existsb_false _ _ Hnod).
  rewrite Nat.sub_diag. cbn [Nat.ltb Nat.leb]. py_eval. rewrite F3.
  cbn [fst snd world disk stdout]. repeat split.
  rewrite <- Hdeps. apply database_eta.
Qed.

Lemma existsb_filter_le {A} (p q : A -> bool) (l : list A) :
  existsb p l = false -> existsb p (List.filter q l) = false.
Proof.
  induction l as [|a l IH]; simpl; [reflexivity|].
  destruct (p a) eqn:E; simpl; [discriminate|].
  intros H. destruct (q a); simpl; rewrite ?E; auto.
Qed.

(** X20.  Removing the same holder twice: the first call removes it; the
    second finds the tax ID in neither table, reports that no person was
    found and changes nothing, provided no dependent has that very tax
    ID. *)
Theorem remover_pessoa_twice (cpf : str) (w : World) :
  cpf_valido cpf = true ->
  no_fault 8 w ->
  holder_exists cpf (disk w) = true ->
  is_Some (tbl_Dependentes (disk w)) ->
  dependent_exists cpf (disk w) = false ->
  let w1 := fst (run (RemovePerson cpf) w) in
  let w2 := fst (run (RemovePerson cpf) w1) in
  stdout w2 = stdout w ++ [TitularRemovido cpf; NenhumaPessoa cpf] /\
  snd (run (RemovePerson cpf) w1) = None /\
  disk w2 = disk w1.
Proof.
  intros V F Hex [deps Hdeps] Hnod. cbv zeta.
  assert (no_fault 4 w) as F4 by (intros i Hi; apply F; lia).
  pose proof (no_fault_0 _ _ F4) as F0. pose proof (no_fault_1 _ _ F4) as F1.
  pose proof (no_fault_2 _ _ F4) as F2. pose proof (no_fault_3 _ _ F4) as F3.
  pose proof (cpf_valido_utf8_encodable _ V) as U.
  assert (exists d1,
            run (RemovePerson cpf) w =
              ({| disk := d1;
                  SQLITE_DEFAULT_FOREIGN_KEYS := SQLITE_DEFAULT_FOREIGN_KEYS w;
                  faults := faults w; calls := 4 + calls w;
                  stdout := stdout w ++ [TitularRemovido cpf] |}, None) /\
            is_Some (tbl_Titulares d1) /\ is_Some (tbl_Dependentes d1) /\
            holder_exists cpf d1 = false /\
            dependent_exists cpf d1 = false)
    as (d1 & Hrun & Ht1 & Hd1 & Hh1 & Hn1).
  { unfold holder_exists in Hex. unfold dependent_exists in Hnod.
    destruct (tbl_Titulares (disk w)) as [rows|] eqn:Hrows; [|discriminate].
    rewrite Hdeps in Hnod. cbn [rows_of] in *.
    unfold run, call, body, remover_pessoa. rewrite V.
    py_eval. rewrite F0. py_eval. rewrite F1.
    unfold select_1_Titulares. rewrite Hrows.
    cbn [bind_params bind_param]. rewrite U.
    destruct (existsb_filter_cons _ _ Hex) as (a & l' & ->).
    cbn [map]. py_eval. rewrite F2.
    unfold delete_Titulares. rewrite Hrows. cbn [bind_params bind_param].
    rewrite U. cbv zeta.
    rewrite (filter_negb_existsb_true _ _ Hex), andb_true_r.
    py_eval. rewrite F3. eexists. split; [reflexivity|].
    unfold holder_exists, dependent_exists.
    cbn [tbl_Titulares tbl_Dependentes rows_of]. rewrite Hdeps.
    split; [eexists; reflexivity|].
    destruct (SQLITE_DEFAULT_FOREIGN_KEYS w); cbn [option_map rows_of].
    - split; [eexists; reflexivity|]. split; [apply existsb_filter_negb|].
      apply existsb_filter_le. exact Hnod.
    - split; [eexists; reflexivity|]. split; [apply existsb_filter_negb|].
      exact Hnod. }
  rewrite Hrun. cbn [fst]. set (w1 := {| disk := d1 |}).
  assert (no_fault 4 w1) as F4'
    by (apply (no_fault_after 4 4 w); [exact F|reflexivity|reflexivity]).
  destruct (remover_pessoa_neither cpf w1 V F4' Ht1 Hd1 Hh1 Hn1)
    as (Hnone & Hout & Hdisk).
  rewrite Hout. cbn [w1 stdout]. rewrite <- app_assoc.
  split; [reflexivity|]. split; [exact Hnone | exact Hdisk].
Qed.

Lemma remover_pessoa_twice_witness :
  stdout (fst (run (RemovePerson (lit "12930888466"))
                   (fst (run (RemovePerson (lit "12930888466"))
                             (healthy main_file))))) =
    [TitularRemovido (lit "12930888466"); NenhumaPessoa (lit "12930888466")].
Proof.
  destruct (remover_pessoa_twice (lit "12930888466") (healthy main_file))
    as (Hout & _).
  - reflexivity.
  - apply no_fault_healthy.
  - reflexivity.
  - eexists. reflexivity.
  - reflexivity.
  - exact Hout.
Defined.


